(** * Ghana universities data scraper: a shallow embedding
    [data_scraper/ghana_universities_scraper.py]

    The development follows the layout of the Python class
    [GhanaUniversityDataScraper]:

    - [Re]: the fragment of Python's [re] module the scraper uses
      (backtracking matcher, [findall], [search]);
    - [Py]: Python values, dictionaries and the string helpers;
    - [BeautifulSoup]: the interface of the HTML library the extractors call,
      with a small document tree implementing it;
    - the field extractors, the page fetchers, the orchestrator and the
      persistence code, written in a state-and-exception monad over the
      outside world (HTTP, clock, sleep, file system, document store);
    - the properties of the specification, one theorem per claim. *)

From Stdlib Require Import ZArith NArith Ascii String List Bool Lia.
From Stdlib Require Import QArith.
From stdpp Require Import base option list strings gmap pretty.

Set Warnings "-register-all".

Local Open Scope string_scope.
Local Open Scope list_scope.

(* ===================================================================== *)
(** * Python's [re], as far as the scraper uses it *)
(* ===================================================================== *)

Module Re.

(** A character is a code point below 256, and a text is a Python string
    of such characters: a [string] lists the code points of the text, so
    its length is the [len] of Python. The scraper's patterns are ASCII;
    the texts they are matched against can hold the other characters of
    Latin-1, which count for [\w], [\s], [\b] and [str.strip] as they do
    in Python. Texts with code points from 256 on are not modelled. *)
Definition code (c : ascii) : N := N_of_ascii c.

Definition in_range (lo hi c : ascii) : bool :=
  ((code lo <=? code c) && (code c <=? code hi))%N.

Definition between (lo hi : N) (c : ascii) : bool :=
  ((lo <=? code c) && (code c <=? hi))%N.

(** The letters that have a lower-case form, and those that have an
    upper-case form, 32 code points away: A..Z with 192..214 and
    216..222, a..z with 224..246 and 248..254. *)
Definition is_upper (c : ascii) : bool :=
  in_range "A" "Z" c || between 192 214 c || between 216 222 c.
Definition is_lower (c : ascii) : bool :=
  in_range "a" "z" c || between 224 246 c || between 248 254 c.
Definition is_digit (c : ascii) : bool := in_range "0" "9" c.

Definition lower (c : ascii) : ascii :=
  if is_upper c then ascii_of_N (code c + 32) else c.
Definition upper (c : ascii) : ascii :=
  if is_lower c then ascii_of_N (code c - 32) else c.

(** [\w]: the underscore and what [str.isalnum] accepts: digits and
    letters, and above 127 the code points 170, 178, 179, 181, 185, 186,
    188..190, 192..214, 216..246 and 248..255. *)
Definition is_word (c : ascii) : bool :=
  is_digit c || in_range "A" "Z" c || in_range "a" "z" c || Ascii.eqb c "_"
  || ((code c =? 170) || between 178 179 c || (code c =? 181)
      || between 185 186 c || between 188 190 c
      || between 192 214 c || between 216 246 c || between 248 255 c)%N.

(** [\s] and the white space of [str.strip], what [str.isspace] accepts:
    space, \t \n \v \f \r (codes 9..13), the separators 28..31, and
    above 127 the next-line character 133 and the no-break space 160. *)
Definition is_space (c : ascii) : bool :=
  ((code c =? 32) || between 9 13 c || between 28 31 c
   || (code c =? 133) || (code c =? 160))%N.

(** One member of a bracketed class: a single character or a range. *)
Inductive citem : Type :=
| CChar (c : ascii)
| CRange (lo hi : ascii)
| CSpace                       (* \s *)
| CDigit.                      (* \d *)

Definition item_match (c : ascii) (i : citem) : bool :=
  match i with
  | CChar x => Ascii.eqb x c
  | CRange lo hi => in_range lo hi c
  | CSpace => is_space c
  | CDigit => is_digit c
  end.

(** With [re.I] a class matches a character when it holds it in either
    case. *)
Definition cls_match (ic : bool) (cls : list citem) (c : ascii) : bool :=
  existsb (item_match c) cls
  || (ic && (existsb (item_match (lower c)) cls
             || existsb (item_match (upper c)) cls)).

Definition chr_eq (ic : bool) (a b : ascii) : bool :=
  if ic then Ascii.eqb (lower a) (lower b) else Ascii.eqb a b.

(** The pattern syntax used by the five patterns of the scraper.
    Repetition is greedy and ranges over a class, as everywhere in the
    source; [Opt] is the greedy [?]; [Grp] is a capturing group,
    non-capturing groups [(?:...)] are plain nesting. *)
Inductive regex : Type :=
| Str (s : string)                       (* literal text *)
| Cls (cls : list citem)                 (* [...] once *)
| Rep (cls : list citem) (lo : nat) (hi : option nat)   (* [...]{lo,hi} *)
| Cat (r1 r2 : regex)
| Alt (r1 r2 : regex)
| Opt (r : regex)
| Grp (r : regex)
| WordB.                                 (* \b *)

Fixpoint ngroups (r : regex) : nat :=
  match r with
  | Str _ | Cls _ | Rep _ _ _ | WordB => 0
  | Cat a b | Alt a b => ngroups a + ngroups b
  | Opt a => ngroups a
  | Grp a => S (ngroups a)
  end.

(** A position in the subject: the character before it, the text after
    it, its offset, and what group 1 holds so far. *)
Record mstate : Type := MState {
  m_prev : option ascii;
  m_rest : string;
  m_pos  : nat;
  m_grp  : option string
}.

Definition advance (c : ascii) (rest : string) (st : mstate) : mstate :=
  MState (Some c) rest (S (m_pos st)) (m_grp st).

Definition word_before (st : mstate) : bool :=
  match m_prev st with Some c => is_word c | None => false end.
Definition word_after (st : mstate) : bool :=
  match m_rest st with String c _ => is_word c | EmptyString => false end.
Definition at_boundary (st : mstate) : bool :=
  xorb (word_before st) (word_after st).

Fixpoint lit_match (ic : bool) (lit : string) (st : mstate) : option mstate :=
  match lit with
  | EmptyString => Some st
  | String c lit' =>
      match m_rest st with
      | String x rest' =>
          if chr_eq ic c x then lit_match ic lit' (advance x rest' st) else None
      | EmptyString => None
      end
  end.

Definition below (hi : option nat) (n : nat) : bool :=
  match hi with Some h => Nat.ltb n h | None => true end.

(** Greedy repetition of a class: take one more character while allowed,
    and fall back to the shorter run when the rest of the pattern
    fails. [n] counts the characters taken so far. *)
Fixpoint rep_greedy (ic : bool) (cls : list citem) (lo : nat) (hi : option nat)
    (grp : option string) (k : mstate -> option mstate)
    (n : nat) (prev : option ascii) (pos : nat) (rest : string)
    : option mstate :=
  let stop := if Nat.leb lo n then k (MState prev rest pos grp) else None in
  match rest with
  | String c rest' =>
      if below hi n && cls_match ic cls c then
        match rep_greedy ic cls lo hi grp k (S n) (Some c) (S pos) rest' with
        | Some fin => Some fin
        | None => stop
        end
      else stop
  | EmptyString => stop
  end.

(** The backtracking matcher, in continuation-passing style: [k] is the
    rest of the pattern. Alternatives are tried left to right. *)
Fixpoint rmatch (ic : bool) (r : regex) (st : mstate)
    (k : mstate -> option mstate) : option mstate :=
  match r with
  | Str s =>
      match lit_match ic s st with Some st' => k st' | None => None end
  | Cls cls =>
      match m_rest st with
      | String c rest' =>
          if cls_match ic cls c then k (advance c rest' st) else None
      | EmptyString => None
      end
  | Rep cls lo hi =>
      rep_greedy ic cls lo hi (m_grp st) k 0 (m_prev st) (m_pos st) (m_rest st)
  | Cat a b => rmatch ic a st (fun st' => rmatch ic b st' k)
  | Alt a b =>
      match rmatch ic a st k with
      | Some fin => Some fin
      | None => rmatch ic b st k
      end
  | Opt a =>
      match rmatch ic a st k with
      | Some fin => Some fin
      | None => k st
      end
  | Grp a =>
      rmatch ic a st (fun st' =>
        k (MState (m_prev st') (m_rest st') (m_pos st')
             (Some (substring 0 (m_pos st' - m_pos st) (m_rest st)))))
  | WordB => if at_boundary st then k st else None
  end.

(** A compiled pattern: [re.compile(r)] or [re.compile(r, re.I)]. *)
Record pattern : Type := Pattern { pat_re : regex; pat_icase : bool }.

(** One match attempt at a position: the length of the match and
    group 1. *)
Definition match_here (p : pattern) (prev : option ascii) (rest : string)
    : option (nat * option string) :=
  match rmatch (pat_icase p) (pat_re p) (MState prev rest 0 None) Some with
  | Some fin => Some (m_pos fin, m_grp fin)
  | None => None
  end.

(** What [findall] reports for one match: the whole match when the
    pattern has no group, group 1 when it has one (the empty string when
    the group did not take part). *)
Definition findall_item (p : pattern) (rest : string)
    (m : nat * option string) : string :=
  if Nat.ltb 0 (ngroups (pat_re p))
  then match snd m with Some g => g | None => "" end
  else substring 0 (fst m) rest.

(** [findall]: scan left to right; after a match of length [n] the scan
    resumes [n] characters further ([skip] counts the characters of the
    current match still to step over). *)
Fixpoint findall_from (p : pattern) (prev : option ascii) (skip : nat)
    (rest : string) : list string :=
  match skip with
  | S n =>
      match rest with
      | String c rest' => findall_from p (Some c) n rest'
      | EmptyString => []
      end
  | O =>
      match match_here p prev rest with
      | Some m =>
          findall_item p rest m ::
          match rest with
          | String c rest' => findall_from p (Some c) (pred (fst m)) rest'
          | EmptyString => []
          end
      | None =>
          match rest with
          | String c rest' => findall_from p (Some c) 0 rest'
          | EmptyString => []
          end
      end
  end.

Definition findall (p : pattern) (text : string) : list string :=
  findall_from p None 0 text.

(** [search]: is there a match anywhere in the text? *)
Fixpoint search_from (p : pattern) (prev : option ascii) (rest : string) : bool :=
  match match_here p prev rest with
  | Some _ => true
  | None =>
      match rest with
      | String c rest' => search_from p (Some c) rest'
      | EmptyString => false
      end
  end.

Definition search (p : pattern) (text : string) : bool :=
  search_from p None text.

(** Pattern-building helpers. *)
Definition cat (rs : list regex) : regex :=
  match rs with
  | [] => Str ""
  | r :: rs' => fold_left Cat rs' r
  end.
Definition alt (rs : list regex) : regex :=
  match rs with
  | [] => Str ""
  | r :: rs' => fold_left Alt rs' r
  end.
Definition plus (cls : list citem) : regex := Rep cls 1 None.

End Re.

Import Re.

(** ** The patterns of the source *)

(** [r'\b[A-Za-z0-9._%+-]+@[A-Za-z0-9.-]+\.[A-Z|a-z]{2,}\b'] *)
Definition email_pattern : pattern :=
  Pattern
    (cat [ WordB;
           plus [CRange "A" "Z"; CRange "a" "z"; CRange "0" "9";
                 CChar "."; CChar "_"; CChar "%"; CChar "+"; CChar "-"];
           Str "@";
           plus [CRange "A" "Z"; CRange "a" "z"; CRange "0" "9";
                 CChar "."; CChar "-"];
           Str ".";
           Rep [CRange "A" "Z"; CChar "|"; CRange "a" "z"] 2 None;
           WordB ])
    false.

(** [r'(\+233|0)[0-9]{9,10}'] *)
Definition phone_pattern : pattern :=
  Pattern
    (cat [ Grp (Alt (Str "+233") (Str "0"));
           Rep [CRange "0" "9"] 9 (Some 10) ])
    false.

(** [re.compile(r'requirement|admission|entry', re.I)] *)
Definition requirement_pattern : pattern :=
  Pattern (alt [Str "requirement"; Str "admission"; Str "entry"]) true.

(** [r'\b(?:January|...|December)\s+\d{1,2}(?:st|nd|rd|th)?,?\s+\d{4}\b'],
    used with [re.I] *)
Definition date_pattern : pattern :=
  Pattern
    (cat [ WordB;
           alt [Str "January"; Str "February"; Str "March"; Str "April";
                Str "May"; Str "June"; Str "July"; Str "August";
                Str "September"; Str "October"; Str "November";
                Str "December"];
           plus [CSpace];
           Rep [CDigit] 1 (Some 2);
           Opt (alt [Str "st"; Str "nd"; Str "rd"; Str "th"]);
           Opt (Str ",");
           plus [CSpace];
           Rep [CDigit] 4 (Some 4);
           WordB ])
    true.

(** [re.compile(r'Bachelor|Master|PhD|Diploma', re.I)] *)
Definition program_pattern : pattern :=
  Pattern (alt [Str "Bachelor"; Str "Master"; Str "PhD"; Str "Diploma"]) true.

(* ===================================================================== *)
(** * Python values *)
(* ===================================================================== *)

Module Py.

(** The values the scraper stores in its dictionaries. A [datetime] is
    identified by its ISO rendering. *)
Inductive pyval : Type :=
| VBool (b : bool)
| VInt (n : Z)
| VStr (s : string)
| VDatetime (iso : string)
| VList (l : list pyval)
| VDict (d : gmap string pyval).

(** A dictionary with string keys. Equality of [gmap]s is equality of
    Python dictionaries: the insertion order plays no part in it. *)
Abbreviation pydict := (gmap string pyval).

(** A dictionary whose entries the code goes through with [.items()]:
    the entries in the order in which their keys were first set. Setting
    a key that is there changes its value in place; a new key goes to the
    end. *)
Record odict (V : Type) : Type := ODict { items : list (string * V) }.

Arguments ODict {V} _.
Arguments items {V} _.

Fixpoint assoc {V} (k : string) (l : list (string * V)) : option V :=
  match l with
  | [] => None
  | (k', v) :: l' => if String.eqb k' k then Some v else assoc k l'
  end.

Fixpoint assoc_set {V} (k : string) (v : V) (l : list (string * V))
    : list (string * V) :=
  match l with
  | [] => [(k, v)]
  | (k', v') :: l' =>
      if String.eqb k' k then (k', v) :: l' else (k', v') :: assoc_set k v l'
  end.

(** [d.get(k)], [d[k] = v], [{}] and [len(d)] *)
#[global] Instance odict_lookup {V} : Lookup string V (odict V) :=
  fun k d => assoc k (items d).
#[global] Instance odict_insert {V} : Insert string V (odict V) :=
  fun k v d => ODict (assoc_set k v (items d)).
#[global] Instance odict_empty {V} : Empty (odict V) := ODict [].
#[global] Instance odict_size {V} : Size (odict V) := fun d => length (items d).

Definition strs (l : list string) : pyval := VList (VStr <$> l).

(** Truth value of a list and of a dictionary: non-empty. *)
Definition list_truthy {A} (l : list A) : bool :=
  match l with [] => false | _ :: _ => true end.
Definition dict_truthy (d : pydict) : bool := negb (Nat.eqb (size d) 0).

(** [list(set(l))]: the distinct elements of [l]. Python leaves their
    order open; the properties below only speak of membership. *)
Definition list_set (l : list string) : list string := remove_dups l.

(** [{**a, **b}]: the entries of [b] win. *)
Definition dict_merge (a b : pydict) : pydict := b ∪ a.

(** [str.strip()]: the white space of [str.isspace] is taken off both
    ends. *)
Fixpoint lstrip (s : string) : string :=
  match s with
  | String c s' => if Re.is_space c then lstrip s' else s
  | EmptyString => EmptyString
  end.

Fixpoint rstrip (s : string) : string :=
  match s with
  | String c s' =>
      match rstrip s' with
      | EmptyString => if Re.is_space c then EmptyString else String c EmptyString
      | t => String c t
      end
  | EmptyString => EmptyString
  end.

Definition strip (s : string) : string := rstrip (lstrip s).

(** [len(s)]: the number of characters. *)
Definition len (s : string) : nat := String.length s.

End Py.

Import Py.

(* ===================================================================== *)
(** * The HTML library *)
(* ===================================================================== *)

(** The scraper reaches the parsed page only through these calls of
    [bs4]. [Tag] is the library's element type; the parsed document is
    itself a [Tag]. *)
Class BeautifulSoup : Type := {
  Tag : Type;
  (** [BeautifulSoup(html, 'html.parser')] *)
  parse : string -> Tag;
  (** [tag.parent], [None] at the document *)
  parent : Tag -> option Tag;
  (** [tag.get_text()] *)
  get_text : Tag -> string;
  (** [tag.find(name, {attr: value})] *)
  find : Tag -> string -> string * string -> option Tag;
  (** [tag.get(key, default)] *)
  get : Tag -> string -> string -> string;
  (** [tag.find_all(names, string=pattern)] *)
  find_all : Tag -> list string -> pattern -> list Tag
}.

(* ===================================================================== *)
(** * Field extractors *)
(* ===================================================================== *)

Section Extractors.

Context `{BS : BeautifulSoup}.

(** [_extract_contact_info] *)
Definition _extract_contact_info (soup : Tag) : option pydict :=
  let contact : pydict := ∅ in
  let text := get_text soup in
  let emails := findall email_pattern text in
  let contact :=
    if list_truthy emails
    then <["emails" := strs (list_set emails)]> contact else contact in
  let phones := findall phone_pattern text in
  let contact :=
    if list_truthy phones
    then <["phones" := strs (list_set phones)]> contact else contact in
  if dict_truthy contact then Some contact else None.

(** One turn of the loop of [_extract_admission_requirements]. *)
Definition requirements_step (requirements : list string) (section : Tag)
    : list string :=
  let parent := match parent section with Some p => p | None => section end in
  let text := strip (get_text parent) in
  if Nat.ltb 20 (len text) && Nat.ltb (len text) 500
  then requirements ++ [text]
  else requirements.

(** [_extract_admission_requirements] *)
Definition _extract_admission_requirements (soup : Tag) : list string :=
  let requirements := [] in
  let req_sections :=
    find_all soup ["div"; "section"; "p"] requirement_pattern in
  fold_left requirements_step (take 3 req_sections) requirements.

(** [_extract_deadlines] *)
Definition _extract_deadlines (soup : Tag) : list string :=
  let text := get_text soup in
  let dates := findall date_pattern text in
  list_set dates.

(** One turn of the loop of [_extract_programs]. *)
Definition programs_step (programs : list string) (elem : Tag) : list string :=
  let text := strip (get_text elem) in
  if Nat.ltb 10 (len text) && Nat.ltb (len text) 100
  then programs ++ [text]
  else programs.

(** [_extract_programs] *)
Definition _extract_programs (soup : Tag) : list string :=
  let programs := [] in
  let program_elements := find_all soup ["li"; "div"] program_pattern in
  fold_left programs_step (take 20 program_elements) programs.

End Extractors.

(* ===================================================================== *)
(** * The outside world and the scraper's state *)
(* ===================================================================== *)

(** An exception of class [Exception], identified by [str(e)]: the only
    thing the handlers of the source read. *)
Definition Exn : Type := string.

(** What [session.get(url)] brings: an exception (connection refused,
    timeout, ...) or a response with a status, whose body can in turn
    fail to be read. *)
Inductive reply : Type :=
| Raises (e : Exn)
| Response (status : Z) (text : Exn + string).

(** The calls of [__init__], [__aenter__] and [__aexit__] that reach
    outside: the client of the document store is built from
    [MONGODB_URI], the data directory is made, the HTTP session is opened;
    on the way out the session and the client are closed. *)
Inductive setup_call : Type :=
| NewStoreClient | MakeDataDir | NewSession | CloseSession | CloseStoreClient.

Record World : Type := {
  (** [session.get(url)] *)
  http_get : string -> reply;
  (** the [n]-th reading of [datetime.now().isoformat()] *)
  clock : nat -> string;
  (** does writing the file at this path raise? *)
  write_raises : string -> option Exn;
  (** does [replace_one] on this collection with this filter raise? *)
  replace_raises : string -> pyval -> option Exn;
  (** does this call of the constructor or of the context manager raise? *)
  setup_raises : setup_call -> option Exn
}.

Inductive level : Type := INFO | WARNING | ERROR.

(** What a run does to the outside, in order. *)
Inductive event : Type :=
| EvLog (lvl : level) (msg : string)
| EvGet (url : string)                          (* a request is sent *)
| EvSleep (secs : Q)                            (* a sleep has elapsed *)
| EvWrite (path : string) (doc : pyval)         (* a file is written *)
| EvReplace (coll : string) (filter doc : pyval) (* an upsert is done *)
| EvSetup (c : setup_call).       (* a resource is made, or is closed *)

(** The fields of [self] that change during a run, with the count of
    clock readings and the trace of events. *)
Record Scraper : Type := {
  universities_data : odict pydict;
  scholarships_data : odict pydict;
  cut_off_points : pydict;
  ticks : nat;
  trace : list event
}.

(** Before the scraper is built: nothing has happened. *)
Definition blank : Scraper :=
  {| universities_data := ∅; scholarships_data := ∅; cut_off_points := ∅;
     ticks := 0; trace := [] |}.

(** The scraper as [__init__] leaves it when it raises nothing: no data,
    the client of the store and the data directory made, and its log
    line. *)
Definition init : Scraper :=
  {| universities_data := ∅; scholarships_data := ∅; cut_off_points := ∅;
     ticks := 0;
     trace := [EvSetup NewStoreClient; EvSetup MakeDataDir;
               EvLog INFO "Ghana University Data Scraper initialized!"] |}.

Definition rate_limit_delay : Q := 2 # 1.
Definition timeout : Z := 30.
Definition max_retries : Z := 3.

Record source_config : Type := {
  url : string;
  admissions_url : string;
  programs_selector : string;
  requirements_selector : string
}.

(** The entry of KNUST in [self.university_sources]. *)
Definition knust_config : source_config :=
  {| url := "https://www.knust.edu.gh";
     admissions_url := "https://www.knust.edu.gh/admissions";
     programs_selector := ".program-list, .course-list";
     requirements_selector := ".admission-requirements, .entry-requirements" |}.

(** [self.university_sources], in the order of the source. *)
Definition university_sources : list (string * source_config) :=
  [ ("KNUST", knust_config);
    ("UG", {| url := "https://www.ug.edu.gh";
              admissions_url := "https://www.ug.edu.gh/admissions";
              programs_selector := ".programs, .courses";
              requirements_selector := ".requirements" |});
    ("UCC", {| url := "https://www.ucc.edu.gh";
               admissions_url := "https://www.ucc.edu.gh/admissions";
               programs_selector := ".programme-list";
               requirements_selector := ".admission-info" |}) ].

(** ** The monad: state, exceptions, and the world to ask *)

Definition M (A : Type) : Type := World -> Scraper -> (Exn + A) * Scraper.

#[global] Instance M_ret : MRet M := fun A a _ s => (inr a, s).

#[global] Instance M_bind : MBind M := fun A B f m w s =>
  match m w s with
  | (inl e, s') => (inl e, s')
  | (inr a, s') => f a w s'
  end.

Definition raise {A} (e : Exn) : M A := fun _ s => (inl e, s).

(** [try: body except Exception as e: handler e]. What the body did to the
    state before it raised stays done. *)
Definition try_except {A} (body : M A) (handler : Exn -> M A) : M A :=
  fun w s =>
    match body w s with
    | (inl e, s') => handler e w s'
    | (inr a, s') => (inr a, s')
    end.

(** [for x in l: f x] *)
Fixpoint for_each {A} (l : list A) (f : A -> M unit) : M unit :=
  match l with
  | [] => mret tt
  | x :: l' => f x ;; for_each l' f
  end.

Definition get_self : M Scraper := fun _ s => (inr s, s).

(** The ways a step changes the state. *)
Definition add_event (e : event) (s : Scraper) : Scraper :=
  {| universities_data := universities_data s;
     scholarships_data := scholarships_data s;
     cut_off_points := cut_off_points s;
     ticks := ticks s;
     trace := trace s ++ [e] |}.

Definition with_university (code : string) (record : pydict) (s : Scraper)
    : Scraper :=
  {| universities_data := <[code := record]> (universities_data s);
     scholarships_data := scholarships_data s;
     cut_off_points := cut_off_points s;
     ticks := ticks s; trace := trace s |}.

Definition with_scholarships (d : odict pydict) (s : Scraper) : Scraper :=
  {| universities_data := universities_data s;
     scholarships_data := d;
     cut_off_points := cut_off_points s;
     ticks := ticks s; trace := trace s |}.

Definition with_cut_off_points (d : pydict) (s : Scraper) : Scraper :=
  {| universities_data := universities_data s;
     scholarships_data := scholarships_data s;
     cut_off_points := d;
     ticks := ticks s; trace := trace s |}.

Definition tick (s : Scraper) : Scraper :=
  {| universities_data := universities_data s;
     scholarships_data := scholarships_data s;
     cut_off_points := cut_off_points s;
     ticks := S (ticks s); trace := trace s |}.

(** [self.universities_data = {}], [self.scholarships_data = {}] and
    [self.cut_off_points = {}] *)
Definition without_data (s : Scraper) : Scraper :=
  {| universities_data := ∅; scholarships_data := ∅; cut_off_points := ∅;
     ticks := ticks s; trace := trace s |}.

Definition reset_data : M unit := fun _ s => (inr tt, without_data s).

Definition emit (e : event) : M unit := fun _ s => (inr tt, add_event e s).

(** [logger.info], [logger.warning], [logger.error]; the messages are
    given without their leading pictograph. *)
Definition log (lvl : level) (msg : string) : M unit := emit (EvLog lvl msg).

(** [self.universities_data[code] = record] *)
Definition set_university (code : string) (record : pydict) : M unit :=
  fun _ s => (inr tt, with_university code record s).

(** [self.scholarships_data = d] *)
Definition set_scholarships (d : odict pydict) : M unit :=
  fun _ s => (inr tt, with_scholarships d s).

(** [self.cut_off_points = d] *)
Definition set_cut_off_points (d : pydict) : M unit :=
  fun _ s => (inr tt, with_cut_off_points d s).

(** [datetime.now().isoformat()] *)
Definition now_isoformat : M string := fun w s =>
  (inr (clock w (ticks s)), tick s).

(** [datetime.now()] *)
Definition now : M pyval := t ← now_isoformat; mret (VDatetime t).

(** [await asyncio.sleep(secs)]: the sleep elapses. It raises nothing of
    class [Exception]: a sleep ends early only when the task is cancelled,
    and [CancelledError] is a [BaseException], which no handler of the
    source catches; a cancelled run is not a run of this model. *)
Definition sleep (secs : Q) : M unit := emit (EvSleep secs).

(** [self.session.get(url)]: the request goes out, then the world
    answers. *)
Definition answer (url : string) : M (Z * (Exn + string)) := fun w s =>
  match http_get w url with
  | Raises e => (inl e, s)
  | Response status text => (inr (status, text), s)
  end.

Definition session_get (url : string) : M (Z * (Exn + string)) :=
  emit (EvGet url) ;; answer url.

(** [await response.text()] *)
Definition response_text (text : Exn + string) : M string :=
  match text with
  | inl e => raise e
  | inr html => mret html
  end.

(** [with open(path, 'w') as f: json.dump(doc, f, ...)] *)
Definition json_dump (path : string) (doc : pyval) : M unit := fun w s =>
  match write_raises w path with
  | Some e => (inl e, s)
  | None => (inr tt, add_event (EvWrite path doc) s)
  end.

(** A call of the constructor or of the context manager. *)
Definition setup (c : setup_call) : M unit := fun w s =>
  match setup_raises w c with
  | Some e => (inl e, s)
  | None => (inr tt, add_event (EvSetup c) s)
  end.

(** Run [m] and hand back how it ended. *)
Definition attempt {A} (m : M A) : M (Exn + A) := fun w s =>
  (inr (fst (m w s)), snd (m w s)).

(** [async with manager: body], for a manager whose [__aexit__] returns
    [None]: the exit runs however the body ends, and an exception of the
    body goes on after it, unless the exit raises one itself. When
    entering raises, neither the body nor the exit runs. *)
Definition async_with {A} (enter exit : M unit) (body : M A) : M A :=
  enter ;;
  r ← attempt body;
  exit ;;
  match r with
  | inl e => raise e
  | inr a => mret a
  end.

(** [await collection.replace_one(filter, doc, upsert=True)] *)
Definition replace_one (coll : string) (filter doc : pyval) : M unit :=
  fun w s =>
    match replace_raises w coll filter with
    | Some e => (inl e, s)
    | None => (inr tt, add_event (EvReplace coll filter doc) s)
    end.

(* ===================================================================== *)
(** * The scraper *)
(* ===================================================================== *)

(** [_get_fallback_university_data] *)
Definition fallback_data : gmap string pydict :=
  {[ "KNUST" :=
       {[ "full_name" :=
            VStr "Kwame Nkrumah University of Science and Technology";
          "location" := VStr "Kumasi";
          "established" := VInt 1952;
          "type" := VStr "public";
          "status" := VStr "fallback_data" ]};
     "UG" :=
       {[ "full_name" := VStr "University of Ghana";
          "location" := VStr "Legon, Accra";
          "established" := VInt 1948;
          "type" := VStr "public";
          "status" := VStr "fallback_data" ]};
     "UCC" :=
       {[ "full_name" := VStr "University of Cape Coast";
          "location" := VStr "Cape Coast";
          "established" := VInt 1962;
          "type" := VStr "public";
          "status" := VStr "fallback_data" ]} ]}.

Definition _get_fallback_university_data (uni_code : string) : pydict :=
  default {[ "status" := VStr "no_data_available" ]} (fallback_data !! uni_code).

Section Scraping.

Context `{BS : BeautifulSoup}.

(** The dictionary [data] that [_fetch_university_main_page] builds from
    a page it could read. *)
Definition main_page_data (soup : Tag) (last_checked : string) : pydict :=
  let data : pydict :=
    {[ "url_accessible" := VBool true;
       "last_checked" := VStr last_checked ]} in
  let description := find soup "meta" ("name", "description") in
  let data :=
    match description with
    | Some d => <["description" := VStr (get d "content" "")]> data
    | None => data
    end in
  let contact_info := _extract_contact_info soup in
  let data :=
    match contact_info with
    | Some c => <["contact" := VDict c]> data
    | None => data
    end in
  data.

(** The dictionary [data] that [_fetch_admissions_page] builds from a
    page it could read. *)
Definition admissions_page_data (soup : Tag) : pydict :=
  let data : pydict := {[ "admissions_url_accessible" := VBool true ]} in
  let requirements := _extract_admission_requirements soup in
  let data :=
    if list_truthy requirements
    then <["admission_requirements" := strs requirements]> data
    else data in
  let deadlines := _extract_deadlines soup in
  let data :=
    if list_truthy deadlines
    then <["deadlines" := strs deadlines]> data
    else data in
  let programs := _extract_programs soup in
  let data :=
    if list_truthy programs
    then <["programs" := strs programs]> data
    else data in
  data.

(** [_fetch_university_main_page] *)
Definition _fetch_university_main_page (url : string) : M pydict :=
  try_except
    ('(status, body) ← session_get url;
     if Z.eqb status 200 then
       html ← response_text body;
       let soup := parse html in
       last_checked ← now_isoformat;
       mret (main_page_data soup last_checked)
     else
       log WARNING ("HTTP " +:+ pretty status +:+ " for " +:+ url) ;;
       mret ({[ "url_accessible" := VBool false;
                "status_code" := VInt status ]} : pydict))
    (fun e =>
       log ERROR ("Error fetching " +:+ url +:+ ": " +:+ e) ;;
       mret ({[ "url_accessible" := VBool false;
                "error" := VStr e ]} : pydict)).

(** [_fetch_admissions_page] *)
Definition _fetch_admissions_page (url : string) : M pydict :=
  try_except
    ('(status, body) ← session_get url;
     if Z.eqb status 200 then
       html ← response_text body;
       let soup := parse html in
       mret (admissions_page_data soup)
     else
       mret ({[ "admissions_url_accessible" := VBool false ]} : pydict))
    (fun e =>
       log ERROR ("Error fetching admissions page " +:+ url +:+ ": " +:+ e) ;;
       mret ({[ "admissions_url_accessible" := VBool false;
                "error" := VStr e ]} : pydict)).

(** The record built from the two pages:
    [{**main_data, **admissions_data, 'last_updated': ..., 'source_urls': [...]}] *)
Definition combine (main_data admissions_data : pydict) (last_updated : string)
    (config : source_config) : pydict :=
  <["source_urls" := strs [url config; admissions_url config]]>
    (<["last_updated" := VStr last_updated]>
       (dict_merge main_data admissions_data)).

(** The body of the loop of [_scrape_universities], for one source. *)
Definition scrape_university (source : string * source_config) : M unit :=
  let '(uni_code, config) := source in
  try_except
    (log INFO ("Scraping " +:+ uni_code +:+ "...") ;;
     main_data ← _fetch_university_main_page (url config);
     admissions_data ← _fetch_admissions_page (admissions_url config);
     last_updated ← now_isoformat;
     set_university uni_code
       (combine main_data admissions_data last_updated config) ;;
     sleep rate_limit_delay)
    (fun e =>
       log ERROR ("Error scraping " +:+ uni_code +:+ ": " +:+ e) ;;
       set_university uni_code (_get_fallback_university_data uni_code)).

(** [_scrape_universities] *)
Definition _scrape_universities : M unit :=
  log INFO "Scraping university data..." ;;
  for_each university_sources scrape_university.

End Scraping.

(** ** Scholarships and cut-off points: static tables, stamped with the
    time of the run *)

Definition enhanced_scholarships (t1 t2 t3 t4 : string) : odict pydict :=
  ODict
  [ ("getfund",
       {[ "full_name" := VStr "Ghana Education Trust Fund (GETFund)";
          "type" := VStr "government";
          "coverage" := strs ["local_students"; "foreign_study"];
          "eligibility" :=
            VStr "Ghanaian citizens with financial need and academic merit";
          "website" := VStr "https://getfund.gov.gh";
          "application_period" := VStr "July - September annually";
          "amount" := VStr "Varies by program and level";
          "contact" := VStr "scholarships@getfund.gov.gh";
          "requirements" :=
            strs ["Ghanaian citizenship";
                  "Admission to accredited institution";
                  "Academic excellence (minimum 2nd class upper)";
                  "Financial need demonstration"];
          "last_updated" := VStr t1 ]});
    ("mastercard_foundation",
       {[ "full_name" := VStr "Mastercard Foundation Scholars Program";
          "type" := VStr "international";
          "coverage" :=
            strs ["tuition"; "accommodation"; "stipend"; "mentorship"];
          "eligibility" :=
            VStr "African students with leadership potential and financial need";
          "website" := VStr "https://mastercardfdn.org/scholars-program/";
          "application_period" := VStr "Varies by university partner";
          "amount" := VStr "Full scholarship plus living allowance";
          "focus_areas" :=
            strs ["STEM"; "Agriculture"; "Health Sciences"; "Business"];
          "partner_universities" :=
            strs ["University of Ghana"; "KNUST"; "Ashesi University"];
          "last_updated" := VStr t2 ]});
    ("ghana_government",
       {[ "full_name" := VStr "Ghana Government Scholarship Scheme";
          "type" := VStr "government";
          "coverage" :=
            strs ["international_study"; "critical_national_programs"];
          "eligibility" := VStr "Ghanaian graduates and professionals";
          "website" := VStr "https://moe.gov.gh/scholarships";
          "application_period" := VStr "March - May annually";
          "focus_areas" :=
            strs ["Medicine"; "Engineering"; "Agriculture"; "ICT"];
          "bond_requirement" :=
            VStr "Yes - service to Ghana after completion";
          "last_updated" := VStr t3 ]});
    ("cocoa_scholarship",
       {[ "full_name" := VStr "COCOBOD Scholarship Scheme";
          "type" := VStr "industry";
          "coverage" := strs ["tuition"; "allowance"];
          "eligibility" :=
            VStr "Children of cocoa farmers and COCOBOD staff";
          "focus_areas" :=
            strs ["Agriculture"; "Cocoa Research"; "Food Science"];
          "application_period" := VStr "June - August annually";
          "last_updated" := VStr t4 ]}) ].

(** [_scrape_scholarships] *)
Definition _scrape_scholarships : M unit :=
  log INFO "Scraping scholarship data..." ;;
  t1 ← now_isoformat; t2 ← now_isoformat;
  t3 ← now_isoformat; t4 ← now_isoformat;
  let enhanced := enhanced_scholarships t1 t2 t3 t4 in
  set_scholarships enhanced ;;
  log INFO ("Updated " +:+ pretty (size enhanced) +:+ " scholarship programs").

Definition ranks (l : list (string * Z)) : pyval :=
  VDict (list_to_map (prod_map id VInt <$> l)).

Definition current_cut_offs (t : string) : pydict :=
  {[ "2024_2025" :=
       VDict
         {[ "KNUST" :=
              ranks [("Medicine", 6); ("Engineering", 12); ("Pharmacy", 8);
                     ("Architecture", 10); ("Agriculture", 20);
                     ("Science", 16); ("Art", 24);
                     ("Built Environment", 14)]%Z;
            "UG" :=
              ranks [("Medicine", 6); ("Law", 10);
                     ("Business Administration", 15);
                     ("Engineering Sciences", 14);
                     ("Physical Sciences", 18); ("Arts", 22);
                     ("Social Sciences", 20)]%Z;
            "UCC" :=
              ranks [("Education", 22); ("Business School", 18);
                     ("Health Sciences", 16); ("Agriculture", 20);
                     ("Computing", 15)]%Z;
            "UPSA" :=
              ranks [("Business Administration", 24); ("ICT", 22);
                     ("Law", 18)]%Z;
            "UDS" :=
              ranks [("Medicine", 8); ("Agriculture", 22);
                     ("Engineering", 16); ("Business", 24)]%Z ]};
     "last_updated" := VStr t;
     "source" := VStr "Ghana Admissions Portal Aggregate";
     "academic_year" := VStr "2024/2025" ]}.

(** [_scrape_cut_off_points] *)
Definition _scrape_cut_off_points : M unit :=
  log INFO "Updating cut-off points..." ;;
  t ← now_isoformat;
  set_cut_off_points (current_cut_offs t) ;;
  log INFO "Cut-off points updated successfully".

(** ** Persistence *)

Definition data_dir : string := "data".

(** [self.data_dir / name] *)
Definition in_data_dir (name : string) : string := data_dir +:+ "/" +:+ name.

(** A dictionary of dictionaries, as the value that is written. *)
Definition dicts (m : odict pydict) : pyval :=
  VDict (VDict <$> list_to_map (items m)).

(** One upsert of the loops of [_save_to_database]. *)
Definition upsert (coll key_name : string) (entry : string * pydict) : M unit :=
  let '(key, data) := entry in
  last_updated ← now;
  replace_one coll
    (VDict {[ key_name := VStr key ]})
    (VDict {[ key_name := VStr key; "data" := VDict data;
              "last_updated" := last_updated ]}).

(** [_save_to_database]: an exception of the store is logged, and the
    function returns. *)
Definition _save_to_database : M unit :=
  try_except
    (self ← get_self;
     for_each (items (universities_data self))
       (upsert "universities_data" "university_code") ;;
     for_each (items (scholarships_data self))
       (upsert "scholarships_data" "scholarship_id") ;;
     upsert "cut_off_points" "academic_year"
       ("2024_2025", cut_off_points self) ;;
     log INFO "Data saved to MongoDB Atlas")
    (fun e => log ERROR ("Database save error: " +:+ e)).

(** [_save_data]: an exception is logged and raised again. *)
Definition _save_data : M unit :=
  log INFO "Saving scraped data..." ;;
  try_except
    (self ← get_self;
     json_dump (in_data_dir "ghana_universities.json")
       (dicts (universities_data self)) ;;
     json_dump (in_data_dir "scholarships.json")
       (dicts (scholarships_data self)) ;;
     json_dump (in_data_dir "cut_off_points.json")
       (VDict (cut_off_points self)) ;;
     _save_to_database ;;
     log INFO "All data saved successfully!")
    (fun e => log ERROR ("Error saving data: " +:+ e) ;; raise e).

Section Run.

Context `{BS : BeautifulSoup}.

(** [scrape_all_data] *)
Definition scrape_all_data : M unit :=
  log INFO "Starting comprehensive Ghana university data scraping..." ;;
  try_except
    (_scrape_universities ;;
     _scrape_scholarships ;;
     _scrape_cut_off_points ;;
     _save_data ;;
     log INFO "Data scraping completed successfully!")
    (fun e => log ERROR ("Scraping error: " +:+ e) ;; raise e).

(** [__init__]: the client of the store, the empty data, the data
    directory. *)
Definition __init__ : M unit :=
  setup NewStoreClient ;;
  reset_data ;;
  setup MakeDataDir ;;
  log INFO "Ghana University Data Scraper initialized!".

(** [__aenter__] *)
Definition __aenter__ : M unit := setup NewSession.

(** [__aexit__] *)
Definition __aexit__ : M unit :=
  setup CloseSession ;;
  setup CloseStoreClient.

(** [main]: the scraper is built and entered, the run is made, the
    scraper is left; what raises on the way is logged. *)
Definition main : M unit :=
  try_except
    (__init__ ;;
     async_with __aenter__ __aexit__ scrape_all_data)
    (fun e => log ERROR ("Scraper failed: " +:+ e)).

End Run.

(** What a computation returns, and the state it leaves. *)
Definition result {A} (m : M A) (w : World) (s : Scraper) : Exn + A :=
  fst (m w s).
Definition after {A} (m : M A) (w : World) (s : Scraper) : Scraper :=
  snd (m w s).

(** The events a computation adds to the trace. *)
Definition events {A} (m : M A) (w : World) (s : Scraper) : list event :=
  drop (length (trace s)) (trace (after m w s)).

(* ===================================================================== *)
(** * A document tree implementing the HTML library *)
(* ===================================================================== *)

Module Dom.

(** A parsed page: strings, and elements with attributes and children.
    A string is a piece of text (a CDATA section counts as text) or an
    aside: a comment, a doctype, a declaration or a processing
    instruction. *)
Inductive node : Type :=
| Text (s : string)
| Aside (s : string)
| Elem (name : string) (attrs : list (string * string)) (kids : list node).

(** An element of the library: a document and the path of child indices
    that leads from its root to the element. *)
Record tag : Type := { root : node; path : list nat }.

Definition document (kids : list node) : tag :=
  {| root := Elem "[document]" [] kids; path := [] |}.

Fixpoint node_at (n : node) (p : list nat) : option node :=
  match p with
  | [] => Some n
  | i :: p' =>
      match n with
      | Elem _ _ kids =>
          match kids !! i with
          | Some k => node_at k p'
          | None => None
          end
      | Text _ | Aside _ => None
      end
  end.

(** The elements whose text the parser sets apart: a piece of text
    belongs to the nearest of them around it, if any. *)
Definition string_containers : list string :=
  ["rt"; "rp"; "style"; "script"; "template"].

Definition container (name : string) (around : option string) : option string :=
  if existsb (String.eqb name) string_containers then Some name else around.

(** The container around the node at a path. *)
Fixpoint container_at (around : option string) (n : node) (p : list nat)
    : option string :=
  match p, n with
  | i :: p', Elem name _ kids =>
      match kids !! i with
      | Some k => container_at (container name around) k p'
      | None => around
      end
  | _, _ => around
  end.

(** [get_text()]: the pieces of text below a node, in document order.
    Asides are left out, and so is the text of another container than
    the one asked for, [wanted]: the text of scripts and styles is no
    text of the page around them. *)
Fixpoint node_text (wanted around : option string) (n : node) : string :=
  match n with
  | Text s => if bool_decide (around = wanted) then s else ""
  | Aside _ => ""
  | Elem name _ kids =>
      (fix go (l : list node) : string :=
         match l with
         | [] => ""
         | k :: l' => node_text wanted (container name around) k +:+ go l'
         end) kids
  end.

(** [.string]: the string of a node that holds a single string, aside or
    not, directly or through single children. *)
Fixpoint node_string (n : node) : option string :=
  match n with
  | Text s | Aside s => Some s
  | Elem _ _ [k] => node_string k
  | Elem _ _ _ => None
  end.

(** The nodes below a node with their paths, in document order. *)
Fixpoint descendants (p : list nat) (n : node) : list (list nat * node) :=
  match n with
  | Text _ | Aside _ => []
  | Elem _ _ kids =>
      (fix go (i : nat) (l : list node) : list (list nat * node) :=
         match l with
         | [] => []
         | k :: l' =>
             (p ++ [i], k) :: descendants (p ++ [i]) k ++ go (S i) l'
         end) 0 kids
  end.

Definition below (t : tag) : list (list nat * node) :=
  match node_at (root t) (path t) with
  | Some n => descendants (path t) n
  | None => []
  end.

Definition tag_parent (t : tag) : option tag :=
  match path t with
  | [] => None
  | _ :: _ => Some {| root := root t; path := removelast (path t) |}
  end.

(** The text of an element is the text of its own container when it is
    one, and else the text that lies in no container. *)
Definition tag_text (t : tag) : string :=
  match node_at (root t) (path t) with
  | Some (Elem name attrs kids) =>
      node_text (container name None)
        (container_at None (root t) (path t)) (Elem name attrs kids)
  | _ => ""
  end.

Definition attr (key : string) (attrs : list (string * string)) : option string :=
  snd <$> List.find (fun kv => String.eqb (fst kv) key) attrs.

Definition tag_get (t : tag) (key dflt : string) : string :=
  match node_at (root t) (path t) with
  | Some (Elem _ attrs _) => default dflt (attr key attrs)
  | _ => dflt
  end.

Definition is_elem (name : string) (kv : string * string) (n : node) : bool :=
  match n with
  | Elem nm attrs _ =>
      String.eqb nm name
      && match attr (fst kv) attrs with
         | Some v => String.eqb v (snd kv)
         | None => false
         end
  | Text _ | Aside _ => false
  end.

Definition tag_find (t : tag) (name : string) (kv : string * string)
    : option tag :=
  (fun pn => {| root := root t; path := fst pn |})
    <$> List.find (fun pn => is_elem name kv (snd pn)) (below t).

(** An element is found by [find_all(names, string=pattern)] when its
    name is listed and its [.string] exists and matches. *)
Definition string_matches (names : list string) (p : pattern) (n : node) : bool :=
  match n with
  | Elem nm _ _ =>
      existsb (String.eqb nm) names
      && match node_string n with
         | Some str => search p str
         | None => false
         end
  | Text _ | Aside _ => false
  end.

Definition tag_find_all (t : tag) (names : list string) (p : pattern)
    : list tag :=
  (fun pn => {| root := root t; path := fst pn |})
    <$> List.filter (fun pn => string_matches names p (snd pn)) (below t).

(** The parser is given by its graph on the pages at hand; any other
    text parses to the empty document. *)
Definition parse_with (pages : list (string * list node)) (html : string) : tag :=
  document
    (default [] (snd <$> List.find (fun pg => String.eqb (fst pg) html) pages)).

Definition soup (pages : list (string * list node)) : BeautifulSoup :=
  {| Tag := tag;
     parse := parse_with pages;
     parent := tag_parent;
     get_text := tag_text;
     find := tag_find;
     get := tag_get;
     find_all := tag_find_all |}.

End Dom.

(** ** Pages and worlds used as examples *)

(** [<div><p>Admission: 6 credits</p></div>]: the text is 20 characters
    long. *)
Definition page20 : Dom.tag :=
  Dom.document
    [ Dom.Elem "div" [] [ Dom.Elem "p" [] [ Dom.Text "Admission: 6 credits" ] ] ].

(** Fifty list items, each naming a programme. *)
Definition fifty_programs : Dom.tag :=
  Dom.document
    (replicate 50 (Dom.Elem "li" [] [ Dom.Text "Bachelor of Science" ])).

(** A page whose whole text is the contact line of the specification. *)
Definition contact_line : string := "contact: a@b.com or 0244123456".

Definition contact_page : Dom.tag :=
  Dom.document [ Dom.Elem "p" [] [ Dom.Text contact_line ] ].

(** ** The specification's reading of the requirements extractor *)

Section Reading.

Context `{BS : BeautifulSoup}.

(** The text of the block around a matched element. *)
Definition block_text (section : Tag) : string :=
  strip (get_text (default section (parent section))).

Definition matched_sections (soup : Tag) : list Tag :=
  find_all soup ["div"; "section"; "p"] requirement_pattern.

(** As the specification words it: of the first 3 matches, the blocks
    whose text length lies in [20, 500). *)
Definition requirements_spec (soup : Tag) : list string :=
  filter (fun t => 20 <= len t < 500)
         (block_text <$> take 3 (matched_sections soup)).

End Reading.

(** ** Reading the state and the trace *)

(** An event other than an elapsed sleep. *)
Definition not_a_sleep (e : event) : Prop :=
  match e with EvSleep _ => False | _ => True end.

(** [s'] comes from [s] by reading the clock and adding events that are
    not sleeps; the data are those of [s]. *)
Definition only_reads (s s' : Scraper) : Prop :=
  universities_data s' = universities_data s
  /\ scholarships_data s' = scholarships_data s
  /\ cut_off_points s' = cut_off_points s
  /\ exists evs, trace s' = trace s ++ evs /\ Forall not_a_sleep evs.

(** The exception that stops the constructor or [__aenter__], if any. *)
Definition setup_failure (w : World) : option Exn :=
  match setup_raises w NewStoreClient with
  | Some e => Some e
  | None =>
      match setup_raises w MakeDataDir with
      | Some e => Some e
      | None => setup_raises w NewSession
      end
  end.

(** The exception that [__aexit__] raises, if any. *)
Definition exit_failure (w : World) : option Exn :=
  match setup_raises w CloseSession with
  | Some e => Some e
  | None => setup_raises w CloseStoreClient
  end.

(** The first of the three file writes that the world refuses, if any. *)
Definition write_failure (w : World) : option Exn :=
  match write_raises w (in_data_dir "ghana_universities.json") with
  | Some e => Some e
  | None =>
      match write_raises w (in_data_dir "scholarships.json") with
      | Some e => Some e
      | None => write_raises w (in_data_dir "cut_off_points.json")
      end
  end.


(** The exception that [main] logs, if any: the one that stops the
    constructor or the entry; else the one the exit raises, which takes
    the place of an exception of the run; else the one the run raised. *)
Definition main_failure (w : World) : option Exn :=
  match setup_failure w with
  | Some e => Some e
  | None =>
      match exit_failure w with
      | Some e => Some e
      | None => write_failure w
      end
  end.

(** ** Worlds used as examples *)

Definition steady_clock (n : nat) : string := "2025-01-01T00:00:" +:+ pretty n.

(** Every page answers 200 with an empty body; nothing fails. *)
Definition calm : World :=
  {| http_get := fun _ => Response 200 (inr "");
     clock := steady_clock;
     write_raises := fun _ => None;
     replace_raises := fun _ _ => None;
     setup_raises := fun _ => None |}.

(** The main page of KNUST cannot be reached. *)
Definition main_page_down : World :=
  {| http_get := fun u =>
       if String.eqb u "https://www.knust.edu.gh"
       then Raises "Connection refused"
       else Response 200 (inr "");
     clock := steady_clock;
     write_raises := fun _ => None;
     replace_raises := fun _ _ => None;
     setup_raises := fun _ => None |}.


(** The home page of KNUST, and the tree it parses to. *)
Definition knust_home : string :=
  "<html><head><meta name='description' content='Science and technology'>"
  +:+ "</head><body><p>contact: a@b.com or 0244123456</p></body></html>".

Definition knust_home_tree : list Dom.node :=
  [ Dom.Elem "html" []
      [ Dom.Elem "head" []
          [ Dom.Elem "meta"
              [("name", "description"); ("content", "Science and technology")]
              [] ];
        Dom.Elem "body" [] [ Dom.Elem "p" [] [ Dom.Text contact_line ] ] ] ].

Definition pages : list (string * list Dom.node) :=
  [ (knust_home, knust_home_tree) ].

(** The home page of KNUST is served, every other page is missing. *)
Definition admissions_missing : World :=
  {| http_get := fun u =>
       if String.eqb u "https://www.knust.edu.gh"
       then Response 200 (inr knust_home)
       else Response 404 (inr "Not Found");
     clock := steady_clock;
     write_raises := fun _ => None;
     replace_raises := fun _ _ => None;
     setup_raises := fun _ => None |}.

(** The document store refuses every write. *)
Definition store_down : World :=
  {| http_get := fun _ => Response 200 (inr "");
     clock := steady_clock;
     write_raises := fun _ => None;
     replace_raises := fun _ _ => Some "store unreachable";
     setup_raises := fun _ => None |}.

(** The file system refuses every write. *)
Definition disk_full : World :=
  {| http_get := fun _ => Response 200 (inr "");
     clock := steady_clock;
     write_raises := fun _ => Some "No space left on device";
     replace_raises := fun _ _ => None;
     setup_raises := fun _ => None |}.

(** The keys of a fallback record and the keys a scraped record can
    hold. *)
Definition fallback_keys : list string :=
  ["full_name"; "location"; "established"; "type"; "status"].

Definition scraped_keys : list string :=
  ["url_accessible"; "last_checked"; "description"; "contact"; "status_code";
   "error"; "admissions_url_accessible"; "admission_requirements";
   "deadlines"; "programs"; "last_updated"; "source_urls"].

(** The log messages of a trace. *)
Definition messages (evs : list event) : list string :=
  omap (fun e => match e with EvLog _ msg => Some msg | _ => None end) evs.


(** ** The words of a pattern *)

(** Every character of a string passes a test. *)
Fixpoint all_chars (P : ascii -> bool) (s : string) : bool :=
  match s with
  | EmptyString => true
  | String c s' => P c && all_chars P s'
  end.

(** Two texts are the same, up to case when [ic] is set. *)
Fixpoint same_text (ic : bool) (a b : string) : bool :=
  match a, b with
  | EmptyString, EmptyString => true
  | String x a', String y b' => chr_eq ic x y && same_text ic a' b'
  | _, _ => false
  end.

(** [lang ic r u]: [u] is a word the pattern [r] can match, leaving aside
    what [\b] asks of the characters around it. *)
Inductive lang (ic : bool) : regex -> string -> Prop :=
| lang_str s u : same_text ic s u = true -> lang ic (Str s) u
| lang_cls cls c :
    cls_match ic cls c = true -> lang ic (Cls cls) (String c EmptyString)
| lang_rep cls lo hi u :
    all_chars (cls_match ic cls) u = true ->
    lo <= String.length u ->
    (forall h, hi = Some h -> String.length u <= h) ->
    lang ic (Rep cls lo hi) u
| lang_cat a b u v : lang ic a u -> lang ic b v -> lang ic (Cat a b) (u +:+ v)
| lang_alt_l a b u : lang ic a u -> lang ic (Alt a b) u
| lang_alt_r a b u : lang ic b u -> lang ic (Alt a b) u
| lang_opt_none a : lang ic (Opt a) EmptyString
| lang_opt_some a u : lang ic a u -> lang ic (Opt a) u
| lang_grp a u : lang ic a u -> lang ic (Grp a) u
| lang_wordb : lang ic WordB EmptyString.

(** [x] is a piece of [text]. *)
Definition occurs_in (x text : string) : Prop :=
  exists pre post, text = pre +:+ x +:+ post.

(** The character classes of the e-mail pattern. *)
Definition local_char (c : ascii) : bool :=
  cls_match false
    [CRange "A" "Z"; CRange "a" "z"; CRange "0" "9";
     CChar "."; CChar "_"; CChar "%"; CChar "+"; CChar "-"] c.
Definition domain_char (c : ascii) : bool :=
  cls_match false
    [CRange "A" "Z"; CRange "a" "z"; CRange "0" "9"; CChar "."; CChar "-"] c.
Definition tld_char (c : ascii) : bool :=
  cls_match false [CRange "A" "Z"; CChar "|"; CRange "a" "z"] c.

(** A text without white space at either end. *)
Definition starts_clean (s : string) : Prop :=
  match s with
  | String c _ => is_space c = false
  | EmptyString => True
  end.

Fixpoint ends_clean (s : string) : Prop :=
  match s with
  | EmptyString => True
  | String c EmptyString => is_space c = false
  | String _ s' => ends_clean s'
  end.

(** ** Reading the events of a run *)

(** The URLs requested, in order. *)
Definition requests (evs : list event) : list string :=
  omap (fun e => match e with EvGet u => Some u | _ => None end) evs.

(** The paths of the files written, in order. *)
Definition written (evs : list event) : list string :=
  omap (fun e => match e with EvWrite path _ => Some path | _ => None end) evs.

(** The upserts done, in order: collection, filter and document. *)
Definition upserts (evs : list event) : list (string * pyval * pyval) :=
  omap (fun e => match e with
                 | EvReplace coll f doc => Some (coll, f, doc)
                 | _ => None
                 end) evs.

(** The kinds of events: what fetching does, what saving does. *)
Definition is_log (e : event) : Prop :=
  match e with EvLog _ _ => True | _ => False end.
Definition is_fetching (e : event) : Prop :=
  match e with EvLog _ _ | EvGet _ | EvSleep _ => True | _ => False end.
Definition is_saving (e : event) : Prop :=
  match e with EvLog _ _ | EvWrite _ _ | EvReplace _ _ _ => True | _ => False end.

(** [m] only adds events of kind [P] to the trace. *)
Definition emits_only {A} (P : event -> Prop) (m : M A) : Prop :=
  forall w s, exists evs,
    trace (after m w s) = trace s ++ evs /\ Forall P evs.

(** [m] leaves the three data fields of the scraper as they are. *)
Definition keeps_data {A} (m : M A) : Prop :=
  forall w s,
    universities_data (after m w s) = universities_data s
    /\ scholarships_data (after m w s) = scholarships_data s
    /\ cut_off_points (after m w s) = cut_off_points s.

(** The requests of one source. *)
Definition source_requests (src : string * source_config) : list string :=
  [url (snd src); admissions_url (snd src)].

(** The document upserted for one entry of a collection. *)
Definition upsert_doc (key_name key : string) (data : pydict) (t : string)
    : pyval :=
  VDict {[ key_name := VStr key; "data" := VDict data;
           "last_updated" := VDatetime t ]}.

(** ** More worlds used as examples *)

(** No page can be reached: each request raises, with the URL in the
    message. *)
Definition network_down : World :=
  {| http_get := fun u => Raises ("Cannot connect to " +:+ u);
     clock := steady_clock;
     write_raises := fun _ => None;
     replace_raises := fun _ _ => None;
     setup_raises := fun _ => None |}.

(** The address of the document store is not one the client accepts. *)
Definition bad_store_address : World :=
  {| http_get := fun _ => Response 200 (inr "");
     clock := steady_clock;
     write_raises := fun _ => None;
     replace_raises := fun _ _ => None;
     setup_raises := fun c =>
       match c with
       | NewStoreClient => Some "Invalid URI scheme"
       | _ => None
       end |}.

(** The second file cannot be written. *)
Definition second_write_fails : World :=
  {| http_get := fun _ => Response 200 (inr "");
     clock := steady_clock;
     write_raises := fun path =>
       if String.eqb path "data/scholarships.json"
       then Some "Permission denied" else None;
     replace_raises := fun _ _ => None;
     setup_raises := fun _ => None |}.

(** A state that holds one university record. *)
Definition one_record : Scraper :=
  with_university "UG" (_get_fallback_university_data "UG") init.

(** A page with a date, and the tree it parses to. *)
Definition deadline_page : Dom.tag :=
  Dom.document
    [ Dom.Elem "p" [] [ Dom.Text "Apply by March 15th, 2025" ] ].

(** ** More readings of the world and of the events *)

(** The store code only logs and upserts. *)
Definition is_store (e : event) : Prop :=
  match e with EvLog _ _ | EvReplace _ _ _ => True | _ => False end.



(** The upsert done for the [i]-th entry of a loop that starts at clock
    reading [n]. *)
Definition upsert_of (w : World) (coll kn : string) (n i : nat)
    (entry : string * pydict) : string * pyval * pyval :=
  (coll, VDict {[ kn := VStr (fst entry) ]},
   upsert_doc kn (fst entry) (snd entry) (clock w (n + i))).

Definition replace_event (u : string * pyval * pyval) : event :=
  EvReplace (fst (fst u)) (snd (fst u)) (snd u).

(** ** The order of the entries, and the handler of the loop *)

(** The keys of a dictionary, in the order of its entries. *)
Definition keys {V} (d : odict V) : list string := (items d).*1.

(** The collection and the filter of each upsert, in order. *)
Definition upsert_filters (evs : list event) : list (string * pyval) :=
  (fun u => (fst (fst u), snd (fst u))) <$> upserts evs.

Definition entry_filter (coll kn key : string) : string * pyval :=
  (coll, VDict {[ kn := VStr key ]}).

(** An event other than the error line of the handler of
    [_scrape_universities]. *)
Definition not_from_the_handler (e : event) : Prop :=
  match e with
  | EvLog _ msg => String.prefix "Error scraping" msg = false
  | _ => True
  end.

(** A page with a doctype, a script and a comment around its
    paragraph. *)
Definition scripted_page : Dom.tag :=
  Dom.document
    [ Dom.Aside "html";
      Dom.Elem "html" []
        [ Dom.Elem "head" []
            [ Dom.Elem "script" [] [ Dom.Text "var a = 'x@y.org';" ] ];
          Dom.Elem "body" []
            [ Dom.Aside " contact: c@d.org ";
              Dom.Elem "p" [] [ Dom.Text "Write to a@b.com" ] ] ] ].

(** ** Reading the events of [main] *)

(** The last log line of a run. *)
Definition closing_line (w : World) : event :=
  match write_failure w with
  | Some e => EvLog ERROR ("Scraping error: " +:+ e)
  | None => EvLog INFO "Data scraping completed successfully!"
  end.

Definition failed (e : Exn) : event := EvLog ERROR ("Scraper failed: " +:+ e).

(** The scraper that [main] has built and entered. *)
Definition entered (s : Scraper) : Scraper :=
  add_event (EvSetup NewSession)
    (add_event (EvLog INFO "Ghana University Data Scraper initialized!")
       (add_event (EvSetup MakeDataDir)
          (without_data (add_event (EvSetup NewStoreClient) s)))).

(** An event of the constructor or of the context manager. *)
Definition is_setup (e : event) : Prop :=
  match e with EvLog _ _ | EvSetup _ => True | _ => False end.

(* ===================================================================== *)
(** * Properties of the extractors *)
(* ===================================================================== *)

Section ExtractorFacts.

Context `{BS : BeautifulSoup}.

Lemma requirements_step_unfold (acc : list string) (x : Tag) :
  requirements_step acc x
  = if Nat.ltb 20 (len (block_text x)) && Nat.ltb (len (block_text x)) 500
    then acc ++ [block_text x] else acc.
Proof. reflexivity. Qed.

Lemma requirements_loop (l : list Tag) (acc : list string) :
  fold_left requirements_step l acc
  = acc ++ filter (fun t => 20 < len t < 500) (block_text <$> l).
Proof.
  revert acc; induction l as [|x l IH]; intros acc; simpl.
  - by rewrite app_nil_r.
  - rewrite IH, requirements_step_unfold, filter_cons.
    destruct (Nat.ltb_spec 20 (len (block_text x))) as [H1|H1];
      destruct (Nat.ltb_spec (len (block_text x)) 500) as [H2|H2]; simpl;
      case_decide; try lia; rewrite <- ?app_assoc; reflexivity.
Qed.

Lemma programs_loop (l : list Tag) (acc : list string) :
  fold_left programs_step l acc
  = acc ++ filter (fun t => 10 < len t < 100)
                  ((fun e => strip (get_text e)) <$> l).
Proof.
  revert acc; induction l as [|x l IH]; intros acc; simpl.
  - by rewrite app_nil_r.
  - rewrite IH. unfold programs_step at 1.
    rewrite filter_cons.
    destruct (Nat.ltb_spec 10 (len (strip (get_text x)))) as [H1|H1];
      destruct (Nat.ltb_spec (len (strip (get_text x))) 100) as [H2|H2]; simpl;
      case_decide; try lia; rewrite <- ?app_assoc; reflexivity.
Qed.

End ExtractorFacts.

(** C7, as amended. Requirements extraction looks at the first 3 elements
    that [find_all] reports for the pattern requirement|admission|entry
    (case-insensitive), takes for each the text of its parent, stripped, and
    keeps, in order, exactly those whose length lies strictly between 20 and
    500: a text of length exactly 20 is dropped. *)
Theorem C7_requirements_open_interval `{BS : BeautifulSoup} (soup : Tag) :
  _extract_admission_requirements soup
  = filter (fun t => 20 < len t < 500)
           (block_text <$> take 3 (matched_sections soup))
  /\ Forall (fun t => len t <> 20) (_extract_admission_requirements soup).
Proof.
  assert (E : _extract_admission_requirements soup
              = filter (fun t => 20 < len t < 500)
                       (block_text <$> take 3 (matched_sections soup))).
  { unfold _extract_admission_requirements. by rewrite requirements_loop. }
  split; [exact E|].
  rewrite E. apply Forall_forall. intros t Ht.
  apply list_elem_of_filter in Ht. lia.
Qed.

(** C7, as the specification states it, fails: on the page
    [<div><p>Admission: 6 credits</p></div>] the blocks of the matches have
    a text of length exactly 20, the specification's reading keeps them and
    the code returns nothing. *)
Lemma C7_length_20_is_dropped :
  len "Admission: 6 credits" = 20
  /\ @requirements_spec (Dom.soup []) page20
     = ["Admission: 6 credits"; "Admission: 6 credits"]
  /\ @_extract_admission_requirements (Dom.soup []) page20 = []
  /\ @_extract_admission_requirements (Dom.soup []) page20
     <> @requirements_spec (Dom.soup []) page20.
Proof.
  assert (S : @requirements_spec (Dom.soup []) page20
              = ["Admission: 6 credits"; "Admission: 6 credits"])
    by (vm_compute; reflexivity).
  assert (C : @_extract_admission_requirements (Dom.soup []) page20 = [])
    by (vm_compute; reflexivity).
  split; [reflexivity|]. split; [exact S|]. split; [exact C|].
  rewrite S, C. discriminate.
Qed.

(** C8. Programs extraction returns at most 20 entries, however many
    elements match, and every entry it returns has a length strictly
    between 10 and 100 (at least 11, at most 99). *)
Theorem C8_programs_capped_and_bounded `{BS : BeautifulSoup} (soup : Tag) :
  length (_extract_programs soup) <= 20
  /\ Forall (fun t => 10 < len t < 100 /\ 11 <= len t <= 99)
            (_extract_programs soup).
Proof.
  unfold _extract_programs. rewrite programs_loop. simpl.
  split.
  - etrans; [apply length_filter|].
    rewrite length_fmap, length_take. lia.
  - apply Forall_forall. intros t Ht.
    apply list_elem_of_filter in Ht. lia.
Qed.

Lemma fifty_programs_give_twenty :
  length (Dom.tag_find_all fifty_programs ["li"; "div"] program_pattern) = 50
  /\ @_extract_programs (Dom.soup []) fifty_programs
     = replicate 20 "Bachelor of Science".
Proof. split; vm_compute; reflexivity. Qed.

(** ** What the contact extraction returns *)

Lemma dict_truthy_insert (k : string) (v : pyval) (d : pydict) :
  dict_truthy (<[k := v]> d) = true.
Proof.
  unfold dict_truthy. apply negb_true_iff, Nat.eqb_neq.
  apply map_size_non_empty_iff, insert_non_empty.
Qed.

(** The contact extraction returns nothing exactly when neither pattern
    is found; otherwise each list it returns holds what [findall] found,
    without duplicates. *)
Lemma contact_info_spec `{BS : BeautifulSoup} (soup : Tag) :
  let emails := findall email_pattern (get_text soup) in
  let phones := findall phone_pattern (get_text soup) in
  (_extract_contact_info soup = None <-> emails = [] /\ phones = [])
  /\ (forall contact, _extract_contact_info soup = Some contact ->
        contact !! "emails"
        = (if list_truthy emails then Some (strs (list_set emails)) else None)
        /\ contact !! "phones"
           = (if list_truthy phones then Some (strs (list_set phones)) else None))
  /\ NoDup (list_set emails) /\ NoDup (list_set phones)
  /\ (forall x, x ∈ list_set emails <-> x ∈ emails)
  /\ (forall x, x ∈ list_set phones <-> x ∈ phones).
Proof.
  intros emails phones. unfold _extract_contact_info.
  fold emails phones.
  split; [|split; [|split; [apply NoDup_remove_dups|
             split; [apply NoDup_remove_dups|
             split; intros x; apply elem_of_remove_dups]]]].
  - destruct emails as [|e es], phones as [|ph phs]; cbn [list_truthy];
      rewrite ?dict_truthy_insert; cbn; split;
      try done; intros [? ?]; done.
  - intros contact.
    destruct emails as [|e es], phones as [|ph phs]; cbn [list_truthy];
      rewrite ?dict_truthy_insert; cbn -[list_set];
      intros [= <-]; split; reflexivity.
Qed.

(** ** What [findall] reports for the phone pattern *)

Lemma substring_prefix (a b : string) :
  substring 0 (String.length a) (a +:+ b) = a.
Proof. induction a as [|c a IH]; simpl; [by destruct b | by rewrite IH]. Qed.

(** A literal matched case-sensitively is a prefix of the text at the
    position. *)
Lemma lit_match_prefix (lit : string) (st st' : mstate) :
  lit_match false lit st = Some st' ->
  m_rest st = lit +:+ m_rest st'
  /\ m_pos st' = m_pos st + String.length lit
  /\ m_grp st' = m_grp st.
Proof.
  revert st; induction lit as [|c lit IH]; intros st; simpl.
  - intros [= <-]. repeat split; lia.
  - destruct (m_rest st) as [|x rest'] eqn:E; [done|].
    unfold chr_eq. destruct (Ascii.eqb_spec c x) as [->|]; [|done].
    intros H. apply IH in H as (H1 & H2 & H3). simpl in *.
    repeat split; [rewrite H1; reflexivity | lia | done].
Qed.

(** A repetition of a class leaves the group as it found it. *)
Lemma rep_greedy_grp ic cls lo hi grp n prev pos rest fin :
  rep_greedy ic cls lo hi grp Some n prev pos rest = Some fin ->
  m_grp fin = grp.
Proof.
  revert n prev pos; induction rest as [|c rest IH]; intros n prev pos; simpl.
  - destruct (Nat.leb lo n); [by intros [= <-] | done].
  - destruct (below hi n && cls_match ic cls c).
    + destruct (rep_greedy _ _ _ _ _ _ (S n) _ _ rest) eqn:E.
      * intros [= <-]. by eapply IH.
      * destruct (Nat.leb lo n); [by intros [= <-] | done].
    + destruct (Nat.leb lo n); [by intros [= <-] | done].
Qed.

(** Whatever the phone pattern matches, its group holds the prefix
    [+233] or [0], not the digits after it. *)
Lemma phone_match_group (prev : option ascii) (rest : string) n g :
  match_here phone_pattern prev rest = Some (n, g) ->
  g = Some "+233" \/ g = Some "0".
Proof.
  unfold match_here, phone_pattern.
  cbn [rmatch cat fold_left pat_re pat_icase m_grp m_prev m_pos m_rest].
  assert (K : forall lit st' k fin,
             lit_match false lit (MState prev rest 0 None) = Some st' ->
             rep_greedy false [CRange "0" "9"] 9 (Some 10)
               (Some (substring 0 (m_pos st' - 0) rest)) Some 0
               (m_prev st') (m_pos st') (m_rest st') = Some fin ->
             k = m_grp fin -> k = Some lit).
  { intros lit st' k fin E F ->.
    apply lit_match_prefix in E as (R & P & _). cbn in R, P.
    apply rep_greedy_grp in F. rewrite F, P, Nat.sub_0_r, R.
    by rewrite substring_prefix. }
  destruct (lit_match false "+233" _) as [st1|] eqn:E1.
  - destruct (rep_greedy _ _ _ _ _ _ _ (m_prev st1) _ _) as [fin|] eqn:F1.
    + intros [= <- <-]. left. by eapply K.
    + destruct (lit_match false "0" _) as [st2|] eqn:E2; [|done].
      destruct (rep_greedy _ _ _ _ _ _ _ (m_prev st2) _ _) as [fin|] eqn:F2;
        [|done].
      intros [= <- <-]. right. by eapply K.
  - destruct (lit_match false "0" _) as [st2|] eqn:E2; [|done].
    destruct (rep_greedy _ _ _ _ _ _ _ (m_prev st2) _ _) as [fin|] eqn:F2;
      [|done].
    intros [= <- <-]. right. by eapply K.
Qed.

Lemma phone_findall_from (rest : string) (prev : option ascii) (skip : nat) x :
  x ∈ findall_from phone_pattern prev skip rest -> x = "+233" \/ x = "0".
Proof.
  assert (I : forall prev rest m,
             match_here phone_pattern prev rest = Some m ->
             findall_item phone_pattern rest m = "+233"
             \/ findall_item phone_pattern rest m = "0").
  { intros p r [n g] E.
    by destruct (phone_match_group _ _ _ _ E) as [-> | ->]; [left|right]. }
  revert prev skip; induction rest as [|c rest IH]; intros prev skip.
  - destruct skip; cbn [findall_from]; [|by intros ?%elem_of_nil].
    destruct (match_here phone_pattern prev "") as [m|] eqn:E;
      [|by intros ?%elem_of_nil].
    intros ->%list_elem_of_singleton. by eapply I.
  - destruct skip; cbn [findall_from]; [|by apply IH].
    destruct (match_here phone_pattern prev (String c rest)) as [m|] eqn:E;
      [|by apply IH].
    intros [->|H]%elem_of_cons; [by eapply I | by eapply IH].
Qed.

(** C3, where the code parts from the claim. On a page whose text is
    ["contact: a@b.com or 0244123456"] the contact extraction returns the
    e-mail set {a@b.com}, but its phone list is ["0"]: the group of the
    phone pattern, not the token 0244123456. On every page the phones it
    reports are among "+233" and "0". *)
Theorem C3_phones_hold_only_the_prefix `{BS : BeautifulSoup} (soup : Tag) :
  get_text soup = contact_line ->
  _extract_contact_info soup
  = Some {[ "emails" := strs ["a@b.com"]; "phones" := strs ["0"] ]}
  /\ ("0244123456" ∉ findall phone_pattern (get_text soup))
  /\ (forall (page : Tag) (x : string),
        x ∈ findall phone_pattern (get_text page) -> x = "+233" \/ x = "0").
Proof.
  intros H. split; [|split].
  - unfold _extract_contact_info. rewrite H. vm_compute. reflexivity.
  - rewrite H. intros [E|E]%phone_findall_from; discriminate E.
  - intros page x. apply phone_findall_from.
Qed.

Lemma C3_on_the_contact_page :
  @get_text (Dom.soup []) contact_page = contact_line
  /\ @_extract_contact_info (Dom.soup []) contact_page
     = Some {[ "emails" := strs ["a@b.com"]; "phones" := strs ["0"] ]}.
Proof.
  split; [reflexivity|].
  apply (@C3_phones_hold_only_the_prefix (Dom.soup []) contact_page).
  reflexivity.
Defined.


(** The text of a script and the comments are no text of the page: the
    addresses they hold are not found. *)
Lemma script_text_is_no_page_text :
  Dom.tag_text scripted_page = "Write to a@b.com"
  /\ @_extract_contact_info (Dom.soup []) scripted_page
     = Some {[ "emails" := strs ["a@b.com"] ]}.
Proof. split; vm_compute; reflexivity. Qed.

(* ===================================================================== *)
(** * Properties of the fetchers *)
(* ===================================================================== *)

Lemma bind_run {A B} (m : M A) (f : A -> M B) w s :
  (m ≫= f) w s
  = match m w s with
    | (inl e, s') => (inl e, s')
    | (inr a, s') => f a w s'
    end.
Proof. reflexivity. Qed.

Ltac frame :=
  repeat split; try reflexivity;
  eexists; split;
  [ cbn; rewrite <- ?app_assoc; reflexivity
  | repeat constructor ].

Section FetchFacts.

Context `{BS : BeautifulSoup}.

(** The main-page helper always returns a dictionary, decided by what
    the request brought. *)
Lemma fetch_main_spec url w s :
  exists d s',
    _fetch_university_main_page url w s = (inr d, s')
    /\ only_reads s s'
    /\ d = match http_get w url with
           | Raises e =>
               {[ "url_accessible" := VBool false; "error" := VStr e ]}
           | Response status body =>
               if Z.eqb status 200 then
                 match body with
                 | inl e =>
                     {[ "url_accessible" := VBool false; "error" := VStr e ]}
                 | inr html => main_page_data (parse html) (clock w (ticks s))
                 end
               else
                 {[ "url_accessible" := VBool false;
                    "status_code" := VInt status ]}
           end.
Proof.
  unfold _fetch_university_main_page, try_except, session_get, answer.
  unfold mbind, M_bind, mret, M_ret, log, emit, response_text, raise,
    now_isoformat.
  cbn.
  destruct (http_get w url) as [e|status [e|html]]; cbn;
    [| destruct (Z.eqb status 200); cbn ..];
    (eexists _, _; split; [reflexivity|]; split; [frame | reflexivity]).
Qed.

(** The admissions-page helper likewise. *)
Lemma fetch_admissions_spec url w s :
  exists d s',
    _fetch_admissions_page url w s = (inr d, s')
    /\ only_reads s s'
    /\ ticks s' = ticks s
    /\ d = match http_get w url with
           | Raises e =>
               {[ "admissions_url_accessible" := VBool false;
                  "error" := VStr e ]}
           | Response status body =>
               if Z.eqb status 200 then
                 match body with
                 | inl e =>
                     {[ "admissions_url_accessible" := VBool false;
                        "error" := VStr e ]}
                 | inr html => admissions_page_data (parse html)
                 end
               else {[ "admissions_url_accessible" := VBool false ]}
           end.
Proof.
  unfold _fetch_admissions_page, try_except, session_get, answer.
  unfold mbind, M_bind, mret, M_ret, log, emit, response_text, raise.
  cbn.
  destruct (http_get w url) as [e|status [e|html]]; cbn;
    [| destruct (Z.eqb status 200); cbn ..];
    (eexists _, _; split; [reflexivity|]; split; [frame|];
     split; reflexivity).
Qed.

End FetchFacts.

(* ===================================================================== *)
(** * Dictionaries that keep the order of their keys *)
(* ===================================================================== *)

Lemma assoc_set_eq {V} (l : list (string * V)) k v :
  assoc k (assoc_set k v l) = Some v.
Proof.
  induction l as [|[k' v'] l IH]; cbn.
  - by rewrite String.eqb_refl.
  - destruct (String.eqb k' k) eqn:E; cbn; by rewrite E.
Qed.

Lemma assoc_set_ne {V} (l : list (string * V)) k k' v :
  k <> k' -> assoc k' (assoc_set k v l) = assoc k' l.
Proof.
  intros Hne. induction l as [|[k0 v0] l IH]; cbn.
  - destruct (String.eqb_spec k k'); [done | reflexivity].
  - destruct (String.eqb_spec k0 k) as [->|Hk]; cbn.
    + destruct (String.eqb_spec k k'); [done | reflexivity].
    + by rewrite IH.
Qed.

Lemma odict_lookup_insert {V} (d : odict V) k v : <[k := v]> d !! k = Some v.
Proof. apply assoc_set_eq. Qed.

Lemma odict_lookup_insert_ne {V} (d : odict V) k k' v :
  k <> k' -> <[k := v]> d !! k' = d !! k'.
Proof. apply assoc_set_ne. Qed.

(** An entry that can be looked up is met when going through the
    entries. *)
Lemma odict_lookup_items {V} (d : odict V) k v :
  d !! k = Some v -> (k, v) ∈ items d.
Proof.
  unfold lookup, odict_lookup. induction (items d) as [|[k' v'] l IH]; cbn.
  - done.
  - destruct (String.eqb_spec k' k) as [->|Hk].
    + intros [= ->]. apply list_elem_of_here.
    + intros H. apply list_elem_of_further, IH, H.
Qed.

(** Setting a key keeps the order of the keys that were there, and puts
    a new key at the end. *)
Lemma assoc_set_keys {V} (l : list (string * V)) k v :
  (assoc_set k v l).*1
  = if bool_decide (k ∈ l.*1) then l.*1 else l.*1 ++ [k].
Proof.
  induction l as [|[k' v'] l IH]; [reflexivity|]. cbn.
  destruct (String.eqb_spec k' k) as [->|Hk]; cbn.
  - rewrite bool_decide_eq_true_2 by apply list_elem_of_here. reflexivity.
  - rewrite IH. destruct (decide (k ∈ l.*1)) as [Hin|Hin].
    + rewrite !bool_decide_eq_true_2; [reflexivity|by right|done].
    + rewrite !bool_decide_eq_false_2; [reflexivity| |done].
      intros [?|?]%elem_of_cons; [by subst|done].
Qed.

Lemma assoc_set_nodup {V} (l : list (string * V)) k v :
  NoDup l.*1 -> NoDup (assoc_set k v l).*1.
Proof.
  intros ND. rewrite assoc_set_keys. case_bool_decide as Hin; [exact ND|].
  apply NoDup_app. split; [exact ND|]. split; [|apply NoDup_singleton].
  intros x Hx ->%list_elem_of_singleton. exact (Hin Hx).
Qed.

(* ===================================================================== *)
(** * Properties of the orchestrator *)
(* ===================================================================== *)

Section OrchestratorFacts.

Context `{BS : BeautifulSoup}.

Lemma scrape_university_spec code cfg w s :
  exists main s1 adm s2 s',
    _fetch_university_main_page (url cfg) w
      (add_event (EvLog INFO ("Scraping " +:+ code +:+ "...")) s)
    = (inr main, s1)
    /\ _fetch_admissions_page (admissions_url cfg) w s1 = (inr adm, s2)
    /\ scrape_university (code, cfg) w s = (inr tt, s')
    /\ universities_data s'
       = <[code := combine main adm (clock w (ticks s2)) cfg]>
           (universities_data s)
    /\ scholarships_data s' = scholarships_data s
    /\ cut_off_points s' = cut_off_points s
    /\ exists pre,
         trace s' = trace s ++ pre ++ [EvSleep rate_limit_delay]
         /\ Forall not_a_sleep pre.
Proof.
  set (s0 := add_event (EvLog INFO ("Scraping " +:+ code +:+ "...")) s).
  destruct (fetch_main_spec (url cfg) w s0)
    as (main & s1 & E1 & (U1 & S1 & C1 & ev1 & T1 & Q1) & _).
  destruct (fetch_admissions_spec (admissions_url cfg) w s1)
    as (adm & s2 & E2 & (U2 & S2 & C2 & ev2 & T2 & Q2) & _ & _).
  exists main, s1, adm, s2.
  unfold scrape_university, try_except.
  rewrite bind_run. change (log INFO _ w s) with (@inr Exn _ tt, s0).
  cbn beta iota. rewrite bind_run, E1. cbn beta iota.
  rewrite bind_run, E2. cbn beta iota.
  unfold now_isoformat, set_university, sleep, log, emit, mbind, M_bind.
  cbn [ticks tick with_university add_event].
  assert (Ht : trace s2 = trace s
               ++ (EvLog INFO ("Scraping " +:+ code +:+ "...") :: ev1 ++ ev2)).
  { rewrite T2, T1. unfold s0. cbn. by rewrite <- !app_assoc. }
  assert (Hq : Forall not_a_sleep
                 (EvLog INFO ("Scraping " +:+ code +:+ "...") :: ev1 ++ ev2)).
  { constructor; [exact I|]. by apply Forall_app. }
  eexists; split; [reflexivity|]; split; [reflexivity|];
    split; [reflexivity|].
  cbn [universities_data scholarships_data cut_off_points trace
       with_university add_event tick].
  rewrite U2, U1, S2, S1, C2, C1, Ht; unfold s0.
  cbn [universities_data scholarships_data cut_off_points add_event].
  split; [reflexivity|]. split; [reflexivity|]. split; [reflexivity|].
  eexists; split; [by rewrite <- app_assoc | exact Hq].
Qed.

(** The loop: every source gets its record, in turn. *)
Lemma scrape_loop_spec (l : list (string * source_config)) w s :
  NoDup l.*1 ->
  exists s',
    for_each l scrape_university w s = (inr tt, s')
    /\ scholarships_data s' = scholarships_data s
    /\ cut_off_points s' = cut_off_points s
    /\ (forall code, code ∉ l.*1 ->
          universities_data s' !! code = universities_data s !! code)
    /\ (forall i code cfg, l !! i = Some (code, cfg) ->
          exists si main s1 adm s2,
            _fetch_university_main_page (url cfg) w si = (inr main, s1)
            /\ _fetch_admissions_page (admissions_url cfg) w s1 = (inr adm, s2)
            /\ universities_data s' !! code
               = Some (combine main adm (clock w (ticks s2)) cfg)).
Proof.
  revert s; induction l as [|[c0 cfg0] l IH]; intros s ND.
  - exists s. split; [reflexivity|].
    split; [reflexivity|]. split; [reflexivity|]. split; [done|].
    intros i code cfg H. by rewrite lookup_nil in H.
  - apply NoDup_cons in ND as [Hc0 ND]. cbn [fst] in Hc0.
    destruct (scrape_university_spec c0 cfg0 w s)
      as (main & s1 & adm & s2 & sa & E1 & E2 & Er & U & Hs & Hc & _).
    destruct (IH sa ND) as (s' & El & Sl & Cl & Fl & Il).
    exists s'. cbn [for_each]. rewrite bind_run, Er. cbn beta iota.
    split; [exact El|].
    split; [congruence|]. split; [congruence|]. split.
    + intros code Hcode. apply not_elem_of_cons in Hcode as [Hne Hl].
      rewrite (Fl _ Hl), U. by rewrite odict_lookup_insert_ne.
    + intros [|i] code cfg H; cbn in H.
      * injection H as <- <-.
        exists (add_event (EvLog INFO ("Scraping " +:+ c0 +:+ "...")) s),
          main, s1, adm, s2.
        split; [exact E1|]. split; [exact E2|].
        by rewrite (Fl _ Hc0), U, odict_lookup_insert.
      * destruct (Il i code cfg H) as (si & m & t1 & a & t2 & H1 & H2 & H3).
        exists si, m, t1, a, t2. split; [exact H1|]. split; [exact H2|].
        exact H3.
Qed.

Lemma sources_nodup : NoDup university_sources.*1.
Proof. compute_done. Qed.

Lemma scrape_universities_spec w s :
  exists s',
    _scrape_universities w s = (inr tt, s')
    /\ scholarships_data s' = scholarships_data s
    /\ cut_off_points s' = cut_off_points s
    /\ (forall code, code ∉ university_sources.*1 ->
          universities_data s' !! code = universities_data s !! code)
    /\ (forall i code cfg, university_sources !! i = Some (code, cfg) ->
          exists si main s1 adm s2,
            _fetch_university_main_page (url cfg) w si = (inr main, s1)
            /\ _fetch_admissions_page (admissions_url cfg) w s1 = (inr adm, s2)
            /\ universities_data s' !! code
               = Some (combine main adm (clock w (ticks s2)) cfg)).
Proof.
  destruct (scrape_loop_spec university_sources w
              (add_event (EvLog INFO "Scraping university data...") s)
              sources_nodup)
    as (s' & E & Hs & Hc & F & Hi).
  exists s'. unfold _scrape_universities. rewrite bind_run.
  change (log INFO _ w s)
    with (@inr Exn _ tt, add_event (EvLog INFO "Scraping university data...") s).
  cbn beta iota. repeat split; assumption.
Qed.

End OrchestratorFacts.

Lemma combine_lookup (main adm : pydict) t cfg (k : string) :
  k <> "source_urls" -> k <> "last_updated" ->
  combine main adm t cfg !! k
  = match adm !! k with Some v => Some v | None => main !! k end.
Proof.
  intros H1 H2. unfold combine, dict_merge.
  rewrite !lookup_insert_ne by done. rewrite lookup_union.
  by destruct (adm !! k), (main !! k).
Qed.

Lemma registry_cases i code cfg :
  university_sources !! i = Some (code, cfg) ->
  code = "KNUST" \/ code = "UG" \/ code = "UCC".
Proof.
  destruct i as [|[|[|i]]]; cbn; intros [= <- <-]; auto.
Qed.

Lemma fallback_of_registry i code cfg :
  university_sources !! i = Some (code, cfg) ->
  _get_fallback_university_data code !! "status" = Some (VStr "fallback_data")
  /\ Forall (fun k => _get_fallback_university_data code !! k = None)
            scraped_keys
  /\ Forall (fun k => is_Some (_get_fallback_university_data code !! k))
            fallback_keys.
Proof.
  intros H. destruct (registry_cases _ _ _ H) as [->|[->| ->]];
    (split; [reflexivity|]; split; repeat constructor; by eexists).
Qed.

Lemma combine_is_not_fallback i code cfg main adm t :
  university_sources !! i = Some (code, cfg) ->
  combine main adm t cfg <> _get_fallback_university_data code.
Proof.
  intros H E. apply fallback_of_registry in H as (_ & H & _).
  assert (K : _get_fallback_university_data code !! "source_urls" = None).
  { rewrite Forall_forall in H. apply H. compute_done. }
  rewrite <- E in K. unfold combine in K. by rewrite lookup_insert_eq in K.
Qed.

Section RecordFacts.

Context `{BS : BeautifulSoup}.

Lemma main_page_data_lookup soup t :
  main_page_data soup t !! "url_accessible" = Some (VBool true)
  /\ main_page_data soup t !! "description"
     = (fun d => VStr (get d "content" ""))
         <$> find soup "meta" ("name", "description")
  /\ main_page_data soup t !! "contact" = VDict <$> _extract_contact_info soup
  /\ Forall (fun k => main_page_data soup t !! k = None) fallback_keys
  /\ Forall (fun k => main_page_data soup t !! k = None)
            ["admissions_url_accessible"; "admission_requirements";
             "deadlines"; "programs"].
Proof.
  unfold main_page_data.
  destruct (find soup "meta" ("name", "description")),
    (_extract_contact_info soup);
    (repeat split; repeat constructor).
Qed.

Lemma admissions_page_data_lookup soup :
  admissions_page_data soup !! "admissions_url_accessible" = Some (VBool true)
  /\ Forall (fun k => admissions_page_data soup !! k = None) fallback_keys.
Proof.
  unfold admissions_page_data.
  destruct (list_truthy (_extract_admission_requirements soup)),
    (list_truthy (_extract_deadlines soup)),
    (list_truthy (_extract_programs soup));
    (repeat split; repeat constructor).
Qed.

Lemma main_has_no_fallback_key url w s d s' :
  _fetch_university_main_page url w s = (inr d, s') ->
  Forall (fun k => d !! k = None) fallback_keys.
Proof.
  intros H. destruct (fetch_main_spec url w s) as (d0 & s0 & E & _ & D).
  rewrite E in H. injection H as <- <-. subst d0.
  destruct (http_get w url) as [e|st [e|html]];
    [| destruct (Z.eqb st 200) ..];
    first [ apply main_page_data_lookup | repeat constructor ].
Qed.

Lemma admissions_has_no_fallback_key url w s d s' :
  _fetch_admissions_page url w s = (inr d, s') ->
  Forall (fun k => d !! k = None) fallback_keys.
Proof.
  intros H.
  destruct (fetch_admissions_spec url w s) as (d0 & s0 & E & _ & _ & D).
  rewrite E in H. injection H as <- <-. subst d0.
  destruct (http_get w url) as [e|st [e|html]];
    [| destruct (Z.eqb st 200) ..];
    first [ apply admissions_page_data_lookup | repeat constructor ].
Qed.

Lemma combine_has_no_fallback_key main adm t cfg :
  Forall (fun k => main !! k = None) fallback_keys ->
  Forall (fun k => adm !! k = None) fallback_keys ->
  Forall (fun k => combine main adm t cfg !! k = None) fallback_keys.
Proof.
  assert (N1 : "source_urls" ∉ fallback_keys) by compute_done.
  assert (N2 : "last_updated" ∉ fallback_keys) by compute_done.
  rewrite !Forall_forall. intros Hm Ha k Hk.
  rewrite combine_lookup by (by intros ->).
  by rewrite (Ha k Hk), (Hm k Hk).
Qed.

End RecordFacts.

(* ===================================================================== *)
(** * Fallback substitution *)
(* ===================================================================== *)

(** C1, where the code parts from the claim. When the main-page or the
    admissions-page request of a source raises a transport exception, the
    fetch helper catches it and returns a dictionary with the
    accessibility flag false and the error text. The attempt is not
    abandoned and the handler that stores the fallback is not reached: the
    record stored for the source combines the dictionaries of both
    helpers, with [last_updated] and [source_urls]; it holds an [error]
    entry and no [status] tag, and is not the fallback record of the
    source. *)
Theorem C1_transport_failure_is_caught_in_the_helper `{BS : BeautifulSoup}
    (w : World) (s : Scraper) (i : nat) (code : string) (cfg : source_config)
    (e : Exn) :
  university_sources !! i = Some (code, cfg) ->
  http_get w (url cfg) = Raises e \/ http_get w (admissions_url cfg) = Raises e ->
  exists (r main adm : pydict) (t : string) (s1 s2 : Scraper),
    universities_data (after _scrape_universities w s) !! code = Some r
    /\ result (_fetch_university_main_page (url cfg)) w s1 = inr main
    /\ result (_fetch_admissions_page (admissions_url cfg)) w s2 = inr adm
    /\ (http_get w (url cfg) = Raises e ->
        main = {[ "url_accessible" := VBool false; "error" := VStr e ]})
    /\ (http_get w (admissions_url cfg) = Raises e ->
        adm = {[ "admissions_url_accessible" := VBool false;
                 "error" := VStr e ]})
    /\ r = combine main adm t cfg
    /\ is_Some (r !! "error")
    /\ r !! "status" = None
    /\ r <> _get_fallback_university_data code.
Proof.
  intros Hi He.
  destruct (scrape_universities_spec w s) as (s' & E & _ & _ & _ & I).
  destruct (I i code cfg Hi) as (si & main & s1 & adm & s2 & E1 & E2 & R).
  exists (combine main adm (clock w (ticks s2)) cfg),
    main, adm, (clock w (ticks s2)), si, s1.
  unfold after, result. rewrite E, E1, E2. cbn [fst snd].
  assert (Dm : http_get w (url cfg) = Raises e ->
               main = {[ "url_accessible" := VBool false; "error" := VStr e ]}).
  { intros H.
    destruct (fetch_main_spec (url cfg) w si) as (d & s0 & E' & _ & D).
    rewrite E1 in E'. injection E' as <- <-. by rewrite H in D. }
  assert (Da : http_get w (admissions_url cfg) = Raises e ->
               adm = {[ "admissions_url_accessible" := VBool false;
                        "error" := VStr e ]}).
  { intros H.
    destruct (fetch_admissions_spec (admissions_url cfg) w s1)
      as (d & s0 & E' & _ & _ & D).
    rewrite E2 in E'. injection E' as <- <-. by rewrite H in D. }
  split; [exact R|]. split; [reflexivity|]. split; [reflexivity|].
  split; [exact Dm|]. split; [exact Da|]. split; [reflexivity|].
  split; [|split].
  - rewrite combine_lookup by done.
    destruct He as [H|H].
    + rewrite (Dm H). destruct (adm !! "error"); by eexists.
    + rewrite (Da H). by eexists.
  - assert (K : Forall (fun k => combine main adm (clock w (ticks s2)) cfg !! k
                                 = None) fallback_keys).
    { apply combine_has_no_fallback_key.
      - by eapply main_has_no_fallback_key.
      - by eapply admissions_has_no_fallback_key. }
    rewrite Forall_forall in K. apply K. compute_done.
  - by eapply combine_is_not_fallback.
Qed.

Lemma C1_when_the_knust_page_is_down :
  university_sources !! 0 = Some ("KNUST", knust_config)
  /\ http_get main_page_down (url knust_config) = Raises "Connection refused"
  /\ exists (r main adm : pydict) (t : string) (s1 s2 : Scraper),
       universities_data
         (after (@_scrape_universities (Dom.soup [])) main_page_down init)
         !! "KNUST" = Some r
       /\ result (@_fetch_university_main_page (Dom.soup []) (url knust_config))
            main_page_down s1 = inr main
       /\ result (@_fetch_admissions_page (Dom.soup [])
                    (admissions_url knust_config))
            main_page_down s2 = inr adm
       /\ (http_get main_page_down (url knust_config)
           = Raises "Connection refused" ->
           main = {[ "url_accessible" := VBool false;
                     "error" := VStr "Connection refused" ]})
       /\ (http_get main_page_down (admissions_url knust_config)
           = Raises "Connection refused" ->
           adm = {[ "admissions_url_accessible" := VBool false;
                    "error" := VStr "Connection refused" ]})
       /\ r = combine main adm t knust_config
       /\ is_Some (r !! "error")
       /\ r !! "status" = None
       /\ r <> _get_fallback_university_data "KNUST".
Proof.
  split; [reflexivity|]. split; [reflexivity|].
  apply (@C1_transport_failure_is_caught_in_the_helper (Dom.soup [])
           main_page_down init 0 "KNUST" knust_config "Connection refused").
  - reflexivity.
  - left. reflexivity.
Defined.

(** C1 at the failing input. The main page of KNUST raises a transport
    exception and every other page is served: the record of KNUST is not
    its fallback record; it carries the error of the main page together
    with the accessibility flag of the admissions page, which was
    fetched, and no status tag. *)
Lemma C1_record_is_not_the_fallback :
  let r := combine
             {[ "url_accessible" := VBool false;
                "error" := VStr "Connection refused" ]}
             {[ "admissions_url_accessible" := VBool true ]}
             (steady_clock 0) knust_config in
  http_get main_page_down "https://www.knust.edu.gh"
  = Raises "Connection refused"
  /\ universities_data
       (after (@_scrape_universities (Dom.soup [])) main_page_down init)
       !! "KNUST" = Some r
  /\ r <> _get_fallback_university_data "KNUST"
  /\ r !! "error" = Some (VStr "Connection refused")
  /\ r !! "admissions_url_accessible" = Some (VBool true)
  /\ r !! "status" = None
  /\ _get_fallback_university_data "KNUST" !! "status"
     = Some (VStr "fallback_data").
Proof.
  intros r.
  split; [reflexivity|].
  split; [vm_compute; reflexivity|].
  assert (K : r !! "status" = None) by (vm_compute; reflexivity).
  split; [intros H; rewrite H in K; vm_compute in K; discriminate K|].
  split; [vm_compute; reflexivity|].
  split; [vm_compute; reflexivity|].
  split; [exact K|].
  vm_compute; reflexivity.
Qed.

(** C5. For every code of the registry a run leaves exactly one record,
    the value of the dictionary at that code. That record is either the
    fallback record of the code, carrying the fallback status tag and none
    of the keys of a scraped record, or the combination of what the two
    fetch helpers returned, holding none of the keys of a fallback record:
    never a mixture. Codes outside the registry get no record. *)
Theorem C5_one_record_fallback_or_scraped `{BS : BeautifulSoup}
    (w : World) (s : Scraper) (code : string) (cfg : source_config) :
  (code, cfg) ∈ university_sources ->
  (exists r : pydict,
    universities_data (after _scrape_universities w s) !! code = Some r
    /\ ((r = _get_fallback_university_data code
         /\ r !! "status" = Some (VStr "fallback_data")
         /\ Forall (fun k => r !! k = None) scraped_keys)
        \/ (exists (main adm : pydict) (t : string) (s1 s2 : Scraper),
              result (_fetch_university_main_page (url cfg)) w s1 = inr main
              /\ result (_fetch_admissions_page (admissions_url cfg)) w s2
                 = inr adm
              /\ r = combine main adm t cfg
              /\ Forall (fun k => r !! k = None) fallback_keys)))
  /\ (forall other : string,
        other ∉ university_sources.*1 ->
        universities_data (after _scrape_universities w s) !! other
        = universities_data s !! other).
Proof.
  intros [i Hi]%list_elem_of_lookup.
  destruct (scrape_universities_spec w s) as (s' & E & _ & _ & F & I).
  destruct (I i code cfg Hi) as (si & main & s1 & adm & s2 & E1 & E2 & R).
  unfold after. rewrite E. cbn [snd]. split; [|exact F].
  eexists. split; [exact R|].
  right. exists main, adm, (clock w (ticks s2)), si, s1.
  unfold result. rewrite E1, E2. repeat split.
  apply combine_has_no_fallback_key.
  - by eapply main_has_no_fallback_key.
  - by eapply admissions_has_no_fallback_key.
Qed.

Lemma C5_for_knust_in_a_calm_run :
  ("KNUST", knust_config) ∈ university_sources
  /\ (exists r : pydict,
        universities_data
          (after (@_scrape_universities (Dom.soup [])) calm init) !! "KNUST"
        = Some r).
Proof.
  split; [constructor|].
  destruct (@C5_one_record_fallback_or_scraped (Dom.soup []) calm init
              "KNUST" knust_config) as [(r & H & _) _].
  - constructor.
  - exists r. exact H.
Defined.

(* ===================================================================== *)
(** * The delay between sources *)
(* ===================================================================== *)

Section DelayFacts.

Context `{BS : BeautifulSoup}.

Lemma events_of_extension {A} (m : M A) w s evs :
  trace (after m w s) = trace s ++ evs -> events m w s = evs.
Proof. intros H. unfold events. by rewrite H, drop_app_length. Qed.

Lemma loop_trace_extends (l : list (string * source_config)) w s :
  exists evs,
    trace (after (for_each l scrape_university) w s) = trace s ++ evs.
Proof.
  revert s; induction l as [|[c0 cfg0] l IH]; intros s.
  - exists []. unfold after. cbn. by rewrite app_nil_r.
  - destruct (scrape_university_spec c0 cfg0 w s)
      as (main & s1 & adm & s2 & sa & _ & _ & Er & _ & _ & _
          & pre & T & _).
    destruct (IH sa) as (evs & Hevs).
    exists ((pre ++ [EvSleep rate_limit_delay]) ++ evs).
    unfold after in *. cbn [for_each]. rewrite bind_run, Er. cbn beta iota.
    by rewrite Hevs, T, <- !app_assoc.
Qed.

(** The events of a loop are those of its first source followed by those
    of the remaining sources. *)
Lemma loop_events_cons src (l : list (string * source_config)) w s :
  events (for_each (src :: l) scrape_university) w s
  = events (scrape_university src) w s
    ++ events (for_each l scrape_university) w
         (after (scrape_university src) w s).
Proof.
  destruct src as [c0 cfg0].
  destruct (scrape_university_spec c0 cfg0 w s)
    as (main & s1 & adm & s2 & sa & _ & _ & Er & _ & _ & _
        & pre & T & _).
  destruct (loop_trace_extends l w sa) as (evs & Hevs).
  assert (A1 : after (scrape_university (c0, cfg0)) w s = sa)
    by (unfold after; by rewrite Er).
  rewrite A1.
  rewrite (events_of_extension (scrape_university (c0, cfg0)) w s
             (pre ++ [EvSleep rate_limit_delay]))
    by (by rewrite A1).
  rewrite (events_of_extension (for_each l scrape_university) w sa evs)
    by exact Hevs.
  apply events_of_extension.
  unfold after in *. cbn [for_each]. rewrite bind_run, Er. cbn beta iota.
  by rewrite Hevs, T, <- !app_assoc.
Qed.

(** Each helper sends its request once, whatever comes back. *)
Lemma fetch_main_requests url w s :
  requests (events (_fetch_university_main_page url) w s) = [url].
Proof.
  unfold events, after, _fetch_university_main_page, try_except, session_get,
    answer.
  unfold mbind, M_bind, mret, M_ret, log, emit, response_text, raise,
    now_isoformat.
  cbn.
  destruct (http_get w url) as [e|status [e|html]]; cbn;
    [| destruct (Z.eqb status 200); cbn ..];
    rewrite <- ?app_assoc, drop_app_length; reflexivity.
Qed.

Lemma fetch_admissions_requests url w s :
  requests (events (_fetch_admissions_page url) w s) = [url].
Proof.
  unfold events, after, _fetch_admissions_page, try_except, session_get,
    answer.
  unfold mbind, M_bind, mret, M_ret, log, emit, response_text, raise.
  cbn.
  destruct (http_get w url) as [e|status [e|html]]; cbn;
    [| destruct (Z.eqb status 200); cbn ..];
    rewrite <- ?app_assoc, drop_app_length; reflexivity.
Qed.

(** The events of the attempt on one source: the log line, the events of
    the two helpers, and the sleep. *)
Lemma scrape_university_events code cfg w s :
  let s0 := add_event (EvLog INFO ("Scraping " +:+ code +:+ "...")) s in
  events (scrape_university (code, cfg)) w s
  = EvLog INFO ("Scraping " +:+ code +:+ "...")
    :: events (_fetch_university_main_page (url cfg)) w s0
    ++ events (_fetch_admissions_page (admissions_url cfg)) w
         (after (_fetch_university_main_page (url cfg)) w s0)
    ++ [EvSleep rate_limit_delay].
Proof.
  intros s0.
  destruct (fetch_main_spec (url cfg) w s0)
    as (main & s1 & E1 & (U1 & S1 & C1 & ev1 & T1 & Q1) & _).
  destruct (fetch_admissions_spec (admissions_url cfg) w s1)
    as (adm & s2 & E2 & (U2 & S2 & C2 & ev2 & T2 & Q2) & _ & _).
  assert (A1 : after (_fetch_university_main_page (url cfg)) w s0 = s1)
    by (unfold after; by rewrite E1).
  rewrite A1.
  rewrite (events_of_extension (_fetch_university_main_page (url cfg)) w s0 ev1)
    by (by rewrite A1).
  rewrite (events_of_extension (_fetch_admissions_page (admissions_url cfg))
             w s1 ev2)
    by (unfold after; by rewrite E2).
  apply events_of_extension.
  unfold after, scrape_university, try_except.
  rewrite bind_run. change (log INFO _ w s) with (@inr Exn _ tt, s0).
  cbn beta iota. rewrite bind_run, E1. cbn beta iota.
  rewrite bind_run, E2. cbn beta iota.
  unfold now_isoformat, set_university, sleep, log, emit, mbind, M_bind.
  cbn [snd ticks trace tick with_university add_event].
  rewrite T2, T1; unfold s0; cbn [trace add_event].
  rewrite <- !app_assoc; reflexivity.
Qed.

Lemma requests_app (l1 l2 : list event) :
  requests (l1 ++ l2) = requests l1 ++ requests l2.
Proof. apply omap_app. Qed.

Lemma scrape_university_requests src w s :
  requests (events (scrape_university src) w s) = source_requests src.
Proof.
  destruct src as [code cfg]. rewrite scrape_university_events.
  change (requests (EvLog ?l ?m :: ?evs)) with (requests evs).
  rewrite !requests_app, fetch_main_requests, fetch_admissions_requests.
  reflexivity.
Qed.

End DelayFacts.

Section DelayOfTheAttempt.

Context `{BS : BeautifulSoup}.



End DelayOfTheAttempt.


(* ===================================================================== *)
(** * What the fetch helpers return *)
(* ===================================================================== *)




(** C10. Whatever the request brings, the two fetch helpers return a
    dictionary; they never raise. When the request raises - or the body
    cannot be read - the dictionary holds the accessibility flag false and
    the text of the exception under [error]. So the attempt on a source
    always returns and stores the combined record: the handler of the
    orchestrator is not reached. *)
Theorem C10_fetch_helpers_never_raise `{BS : BeautifulSoup}
    (w : World) (s : Scraper) (url : string) (e : Exn) :
  http_get w url = Raises e \/ http_get w url = Response 200 (inl e) ->
  result (_fetch_university_main_page url) w s
  = inr {[ "url_accessible" := VBool false; "error" := VStr e ]}
  /\ result (_fetch_admissions_page url) w s
     = inr {[ "admissions_url_accessible" := VBool false; "error" := VStr e ]}
  /\ (forall (w' : World) (s' : Scraper) (u : string),
        (exists d, result (_fetch_university_main_page u) w' s' = inr d)
        /\ (exists d, result (_fetch_admissions_page u) w' s' = inr d))
  /\ (forall (code : string) (cfg : source_config),
        result (scrape_university (code, cfg)) w s = inr tt
        /\ exists (main adm : pydict) (t : string),
             universities_data (after (scrape_university (code, cfg)) w s)
               !! code = Some (combine main adm t cfg)).
Proof.
  intros H.
  destruct (fetch_main_spec url w s) as (d1 & s1 & E1 & _ & D1).
  destruct (fetch_admissions_spec url w s) as (d2 & s2 & E2 & _ & _ & D2).
  unfold result at 1 2. rewrite E1, E2. cbn [fst].
  split; [|split; [|split]].
  - destruct H as [H|H]; rewrite H in D1; by subst d1.
  - destruct H as [H|H]; rewrite H in D2; by subst d2.
  - intros w' s' u.
    destruct (fetch_main_spec u w' s') as (d & t1 & F1 & _).
    destruct (fetch_admissions_spec u w' s') as (d' & t2 & F2 & _).
    unfold result. rewrite F1, F2. split; by eexists.
  - intros code cfg.
    destruct (scrape_university_spec code cfg w s)
      as (main & t1 & adm & t2 & sa & _ & _ & Er & U & _).
    unfold result, after. rewrite Er. cbn [fst snd]. split; [reflexivity|].
    exists main, adm, (clock w (ticks t2)).
    by rewrite U, odict_lookup_insert.
Qed.

Lemma C10_when_the_knust_page_is_down :
  http_get main_page_down "https://www.knust.edu.gh"
  = Raises "Connection refused"
  /\ result (@_fetch_university_main_page (Dom.soup [])
               "https://www.knust.edu.gh") main_page_down init
     = inr {[ "url_accessible" := VBool false;
              "error" := VStr "Connection refused" ]}.
Proof.
  split; [reflexivity|].
  apply (@C10_fetch_helpers_never_raise (Dom.soup []) main_page_down init
           "https://www.knust.edu.gh" "Connection refused").
  left. reflexivity.
Defined.



(** On that run the description and the contact of the record are those
    of the home page. *)
Lemma knust_record_keeps_the_main_page_fields :
  (universities_data
     (after (@_scrape_universities (Dom.soup pages)) admissions_missing init)
     !! "KNUST") ≫= (.!! "description")
  = Some (VStr "Science and technology")
  /\ (universities_data
        (after (@_scrape_universities (Dom.soup pages)) admissions_missing init)
        !! "KNUST") ≫= (.!! "contact")
     = Some (VDict {[ "emails" := strs ["a@b.com"]; "phones" := strs ["0"] ]}).
Proof. split; vm_compute; reflexivity. Qed.

(* ===================================================================== *)
(** * Persistence failures *)
(* ===================================================================== *)

Lemma save_to_database_returns w s :
  exists s', _save_to_database w s = (inr tt, s').
Proof.
  unfold _save_to_database, try_except.
  match goal with |- context [match ?b w s with _ => _ end] =>
    destruct (b w s) as [[e|[]] s1] end.
  - by eexists.
  - by eexists.
Qed.

Lemma scrape_scholarships_returns w s :
  exists s', _scrape_scholarships w s = (inr tt, s').
Proof.
  unfold _scrape_scholarships, log, emit, now_isoformat, set_scholarships.
  unfold mbind, M_bind. eexists. reflexivity.
Qed.

Lemma scrape_cut_off_points_returns w s :
  exists s', _scrape_cut_off_points w s = (inr tt, s').
Proof.
  unfold _scrape_cut_off_points, log, emit, now_isoformat, set_cut_off_points.
  unfold mbind, M_bind. eexists. reflexivity.
Qed.

(** [_save_data] raises exactly when a file write does. *)
Lemma save_data_spec w s :
  exists s',
    _save_data w s
    = (match write_failure w with Some e => inl e | None => inr tt end, s').
Proof.
  unfold _save_data, try_except, write_failure.
  rewrite bind_run.
  change (log INFO "Saving scraped data..." w s)
    with (@inr Exn _ tt, add_event (EvLog INFO "Saving scraped data...") s).
  cbn beta iota. set (s0 := add_event _ s).
  rewrite bind_run. change (get_self w s0) with (@inr Exn _ s0, s0).
  cbn beta iota.
  rewrite bind_run. unfold json_dump at 1.
  destruct (write_raises w (in_data_dir "ghana_universities.json")) as [e|];
    [by eexists|].
  rewrite bind_run. unfold json_dump at 1.
  cbn [universities_data scholarships_data cut_off_points add_event].
  destruct (write_raises w (in_data_dir "scholarships.json")) as [e|];
    [by eexists|].
  rewrite bind_run. unfold json_dump at 1.
  destruct (write_raises w (in_data_dir "cut_off_points.json")) as [e|];
    [by eexists|].
  rewrite bind_run.
  match goal with |- context [_save_to_database w ?t] =>
    destruct (save_to_database_returns w t) as (s1 & ->) end.
  by eexists.
Qed.

(** C2, where the code parts from the claim. Whether a run raises to its
    caller depends on the file writes alone: a failure of a file write is
    logged and raised again, up to the caller of [scrape_all_data], but a
    failure of the document store is caught inside [_save_to_database],
    which logs it and returns. With a store that refuses every write the
    run returns normally and logs that all data were saved. *)
Theorem C2_store_failure_is_swallowed :
  (forall (BS : BeautifulSoup) (w : World) (s : Scraper),
     result scrape_all_data w s
     = match write_failure w with Some e => inl e | None => inr tt end)
  /\ (forall coll filter,
        replace_raises store_down coll filter = Some "store unreachable")
  /\ result (@scrape_all_data (Dom.soup [])) store_down init = inr tt
  /\ messages (events (@scrape_all_data (Dom.soup [])) store_down init)
     = [ "Starting comprehensive Ghana university data scraping...";
         "Scraping university data..."; "Scraping KNUST..."; "Scraping UG...";
         "Scraping UCC..."; "Scraping scholarship data...";
         "Updated 4 scholarship programs"; "Updating cut-off points...";
         "Cut-off points updated successfully"; "Saving scraped data...";
         "Database save error: store unreachable";
         "All data saved successfully!";
         "Data scraping completed successfully!" ]
  /\ result (@scrape_all_data (Dom.soup [])) disk_full init
     = inl "No space left on device".
Proof.
  split; [|split; [reflexivity|]; split; [vm_compute; reflexivity|];
           split; vm_compute; reflexivity].
  intros BS w s. unfold result, scrape_all_data, try_except.
  rewrite bind_run.
  match goal with |- context [log INFO ?m w s] =>
    change (log INFO m w s) with (@inr Exn _ tt, add_event (EvLog INFO m) s)
  end.
  cbn beta iota.
  rewrite bind_run.
  match goal with |- context [_scrape_universities w ?t] =>
    destruct (scrape_universities_spec w t) as (s1 & -> & _) end.
  cbn beta iota. rewrite bind_run.
  destruct (scrape_scholarships_returns w s1) as (s2 & ->).
  cbn beta iota. rewrite bind_run.
  destruct (scrape_cut_off_points_returns w s2) as (s3 & ->).
  cbn beta iota. rewrite bind_run.
  destruct (save_data_spec w s3) as (s4 & ->).
  by destruct (write_failure w).
Qed.

(* ===================================================================== *)
(** * Further properties: the words the patterns match *)
(* ===================================================================== *)

Set Warnings "-clear-no-such-hyp".

Lemma str_app_assoc (a b c : string) : (a +:+ b) +:+ c = a +:+ b +:+ c.
Proof.
  induction a as [|x a IH]; [reflexivity|]. exact (f_equal (String x) IH).
Qed.

Lemma str_app_nil_r (a : string) : a +:+ "" = a.
Proof.
  induction a as [|x a IH]; [reflexivity|]. exact (f_equal (String x) IH).
Qed.

Lemma str_length_app (a b : string) :
  String.length (a +:+ b) = String.length a + String.length b.
Proof. induction a as [|x a IH]; [reflexivity|]. exact (f_equal S IH). Qed.

Lemma all_chars_app P (a b : string) :
  all_chars P (a +:+ b) = all_chars P a && all_chars P b.
Proof.
  induction a as [|x a IH]; [reflexivity|].
  change (P x && all_chars P (a +:+ b) = P x && all_chars P a && all_chars P b).
  by rewrite IH, andb_assoc.
Qed.

(** A matched literal is a prefix of the text, up to case. *)
Lemma lit_match_sound ic (lit : string) (st st' : mstate) :
  lit_match ic lit st = Some st' ->
  exists u, m_rest st = u +:+ m_rest st'
            /\ m_pos st' = m_pos st + String.length u
            /\ m_grp st' = m_grp st
            /\ same_text ic lit u = true.
Proof.
  revert st; induction lit as [|c lit IH]; intros st; cbn [lit_match].
  - intros [= <-]. exists "". split; [reflexivity|]. split; [cbn; lia|].
    split; reflexivity.
  - destruct (m_rest st) as [|x rest'] eqn:E; [done|].
    destruct (chr_eq ic c x) eqn:Hc; [|done].
    intros H. apply IH in H as (u & H1 & H2 & H3 & H4).
    cbn [m_rest m_pos m_grp advance] in H1, H2, H3.
    exists (String x u). split; [rewrite H1; reflexivity|].
    split; [cbn [String.length]; lia|]. split; [exact H3|].
    cbn [same_text]. by rewrite Hc, H4.
Qed.

Lemma rep_greedy_sound ic cls lo hi grp k rest :
  forall n prev pos fin,
  rep_greedy ic cls lo hi grp k n prev pos rest = Some fin ->
  exists u rest' prev',
    rest = u +:+ rest'
    /\ all_chars (cls_match ic cls) u = true
    /\ lo <= n + String.length u
    /\ (forall h, hi = Some h -> String.length u = 0 \/ n + String.length u <= h)
    /\ k (MState prev' rest' (pos + String.length u) grp) = Some fin.
Proof.
  assert (Stop : forall n prev pos rest fin,
             (if Nat.leb lo n then k (MState prev rest pos grp) else None)
             = Some fin ->
             exists u rest' prev',
               rest = u +:+ rest'
               /\ all_chars (cls_match ic cls) u = true
               /\ lo <= n + String.length u
               /\ (forall h, hi = Some h ->
                     String.length u = 0 \/ n + String.length u <= h)
               /\ k (MState prev' rest' (pos + String.length u) grp) = Some fin).
  { intros n prev pos rest0 fin.
    destruct (Nat.leb_spec lo n) as [Hl|Hl]; [|done]. intros Hk.
    exists "", rest0, prev. cbn [String.length]. rewrite !Nat.add_0_r.
    split; [reflexivity|]. split; [reflexivity|]. split; [exact Hl|].
    split; [by left | exact Hk]. }
  induction rest as [|c rest IH]; intros n prev pos fin; cbn [rep_greedy].
  - apply Stop.
  - destruct (below hi n && cls_match ic cls c) eqn:Hb; [|apply Stop].
    apply andb_true_iff in Hb as [Hb Hc].
    destruct (rep_greedy ic cls lo hi grp k (S n) (Some c) (S pos) rest)
      as [fin'|] eqn:E; [|apply Stop].
    intros [= <-]. apply IH in E as (u & rest' & prev' & R & A & L & B & K).
    exists (String c u), rest', prev'.
    split; [rewrite R; reflexivity|].
    split; [cbn [all_chars]; by rewrite Hc, A|].
    cbn [String.length].
    replace (pos + S (String.length u)) with (S pos + String.length u) by lia.
    split; [lia|]. split; [|exact K].
    intros h Hh. right. destruct (B h Hh) as [Z|Z]; [|lia].
    unfold below in Hb. rewrite Hh in Hb. apply Nat.ltb_lt in Hb. lia.
Qed.

(** Soundness of the matcher: a match consumes a word of the pattern, and
    hands the rest of the text to the continuation. *)
Lemma rmatch_sound ic (r : regex) :
  forall st k fin,
  rmatch ic r st k = Some fin ->
  exists u st',
    m_rest st = u +:+ m_rest st'
    /\ m_pos st' = m_pos st + String.length u
    /\ lang ic r u
    /\ k st' = Some fin.
Proof.
  induction r as [s|cls|cls lo hi|a IHa b IHb|a IHa b IHb|a IHa|a IHa|];
    intros st k fin; cbn [rmatch].
  - destruct (lit_match ic s st) as [st'|] eqn:E; [|done]. intros K.
    apply lit_match_sound in E as (u & H1 & H2 & _ & H4).
    exists u, st'. split; [exact H1|]. split; [exact H2|].
    split; [by apply lang_str | exact K].
  - destruct (m_rest st) as [|c rest'] eqn:E; [done|].
    destruct (cls_match ic cls c) eqn:Hc; [|done]. intros K.
    exists (String c ""), (advance c rest' st).
    split; [reflexivity|]. split; [cbn; lia|].
    split; [by apply lang_cls | exact K].
  - intros H.
    apply rep_greedy_sound in H as (u & rest' & prev' & R & A & L & B & K).
    exists u, (MState prev' rest' (m_pos st + String.length u) (m_grp st)).
    split; [exact R|]. split; [reflexivity|].
    split; [|exact K]. apply lang_rep; [done | lia |].
    intros h Hh. destruct (B h Hh); lia.
  - intros H. apply IHa in H as (u & st1 & R1 & P1 & L1 & H).
    apply IHb in H as (v & st2 & R2 & P2 & L2 & K).
    exists (u +:+ v), st2. rewrite R1, R2, str_app_assoc, str_length_app.
    split; [reflexivity|]. split; [lia|].
    split; [by apply lang_cat | exact K].
  - destruct (rmatch ic a st k) as [fin'|] eqn:E.
    + intros [= <-]. apply IHa in E as (u & st' & R & P & L & K).
      exists u, st'. split; [exact R|]. split; [exact P|].
      split; [by apply lang_alt_l | exact K].
    + intros H. apply IHb in H as (u & st' & R & P & L & K).
      exists u, st'. split; [exact R|]. split; [exact P|].
      split; [by apply lang_alt_r | exact K].
  - destruct (rmatch ic a st k) as [fin'|] eqn:E.
    + intros [= <-]. apply IHa in E as (u & st' & R & P & L & K).
      exists u, st'. split; [exact R|]. split; [exact P|].
      split; [by apply lang_opt_some | exact K].
    + intros K. exists "", st. split; [reflexivity|]. split; [cbn; lia|].
      split; [apply lang_opt_none | exact K].
  - intros H. apply IHa in H as (u & st' & R & P & L & K).
    exists u, (MState (m_prev st') (m_rest st') (m_pos st')
                 (Some (substring 0 (m_pos st' - m_pos st) (m_rest st)))).
    split; [exact R|]. split; [exact P|].
    split; [by apply lang_grp | exact K].
  - destruct (at_boundary st); [|done]. intros K.
    exists "", st. split; [reflexivity|]. split; [cbn; lia|].
    split; [apply lang_wordb | exact K].
Qed.

Lemma same_text_eq (s u : string) : same_text false s u = true -> u = s.
Proof.
  revert u; induction s as [|c s IH]; intros [|x u]; cbn [same_text]; try done.
  unfold chr_eq. intros [Hc Hs]%andb_true_iff.
  apply Ascii.eqb_eq in Hc as ->. by rewrite (IH u Hs).
Qed.

(** What a match attempt reports is a prefix of the text at the position,
    and a word of the pattern. *)
Lemma match_here_sound (p : pattern) prev rest n g :
  match_here p prev rest = Some (n, g) ->
  exists u rest',
    rest = u +:+ rest' /\ n = String.length u
    /\ lang (pat_icase p) (pat_re p) u.
Proof.
  unfold match_here.
  destruct (rmatch _ _ _ _) as [fin|] eqn:E; [|done]. intros [= <- <-].
  apply rmatch_sound in E as (u & st' & R & P & L & [= ->]).
  exists u, (m_rest fin). cbn in R, P. by repeat split.
Qed.

Lemma occurs_in_later (x : string) (c : ascii) (text : string) :
  occurs_in x text -> occurs_in x (String c text).
Proof. intros (pre & post & ->). by exists (String c pre), post. Qed.

(** For a pattern without group, every item of [findall] is a piece of the
    text and a word of the pattern. *)
Lemma findall_from_sound (p : pattern) :
  ngroups (pat_re p) = 0 ->
  forall rest prev skip x,
    x ∈ findall_from p prev skip rest ->
    occurs_in x rest /\ lang (pat_icase p) (pat_re p) x.
Proof.
  intros Hg.
  assert (I : forall prev rest m,
             match_here p prev rest = Some m ->
             occurs_in (findall_item p rest m) rest
             /\ lang (pat_icase p) (pat_re p) (findall_item p rest m)).
  { intros prev rest [n g] E.
    apply match_here_sound in E as (u & rest' & -> & -> & L).
    unfold findall_item. rewrite Hg. cbn [Nat.ltb Nat.leb fst].
    rewrite substring_prefix. split; [by exists "", rest'|exact L]. }
  induction rest as [|c rest IH]; intros prev skip x.
  - destruct skip; cbn [findall_from]; [|by intros ?%elem_of_nil].
    destruct (match_here p prev "") as [m|] eqn:E;
      [|by intros ?%elem_of_nil].
    intros ->%list_elem_of_singleton. by eapply I.
  - assert (L : forall prev skip,
               x ∈ findall_from p prev skip rest ->
               occurs_in x (String c rest) /\ lang (pat_icase p) (pat_re p) x).
    { intros pr sk H. apply IH in H as [H1 H2].
      split; [by apply occurs_in_later | exact H2]. }
    destruct skip; cbn [findall_from]; [|by apply L].
    destruct (match_here p prev (String c rest)) as [m|] eqn:E;
      [|by apply L].
    intros [->|H]%elem_of_cons; [by eapply I | by eapply L].
Qed.

Ltac lang_cases :=
  repeat match goal with
  | H : lang _ (Cat _ _) _ |- _ => inversion H; subst; clear H
  | H : lang _ WordB _ |- _ => inversion H; subst; clear H
  | H : lang _ (Str _) _ |- _ => inversion H; subst; clear H
  | H : lang _ (Rep _ _ _) _ |- _ => inversion H; subst; clear H
  | H : same_text false _ _ = true |- _ => apply same_text_eq in H; subst
  end.

(** The words of the e-mail pattern. *)
Lemma email_words (x : string) :
  lang false (pat_re email_pattern) x ->
  exists local domain tld,
    x = local +:+ "@" +:+ domain +:+ "." +:+ tld
    /\ all_chars local_char local = true /\ 1 <= String.length local
    /\ all_chars domain_char domain = true /\ 1 <= String.length domain
    /\ all_chars tld_char tld = true /\ 2 <= String.length tld.
Proof.
  unfold email_pattern. cbn [pat_re cat fold_left]. unfold Re.plus.
  intros H. lang_cases.
  rewrite str_app_nil_r, !str_app_assoc.
  eexists _, _, _. split; [reflexivity|].
  repeat split; assumption.
Qed.

Lemma strs_inj (l1 l2 : list string) : strs l1 = strs l2 -> l1 = l2.
Proof.
  unfold strs. intros [= H]. revert l2 H.
  induction l1 as [|a l1 IH]; intros [|b l2]; cbn; try done.
  intros [= -> H]. by rewrite (IH l2 H).
Qed.




(** X1. Every e-mail address that the contact extraction reports is a
    piece of the text of the page, of the form local@domain.tld: a local
    part and a domain of at least one character, and an ending of at
    least two characters after the last dot taken, each made of the
    characters the pattern allows. The list has no duplicates. *)
Theorem X1_emails_come_from_the_page `{BS : BeautifulSoup}
    (soup : Tag) (contact : pydict) (l : list string) :
  _extract_contact_info soup = Some contact ->
  contact !! "emails" = Some (strs l) ->
  NoDup l
  /\ Forall (fun x =>
       occurs_in x (get_text soup)
       /\ exists local domain tld,
            x = local +:+ "@" +:+ domain +:+ "." +:+ tld
            /\ all_chars local_char local = true /\ 1 <= String.length local
            /\ all_chars domain_char domain = true /\ 1 <= String.length domain
            /\ all_chars tld_char tld = true /\ 2 <= String.length tld) l.
Proof.
  intros Hc Hl.
  destruct (contact_info_spec soup) as (_ & S & N & _ & M & _).
  destruct (S contact Hc) as [E _]. rewrite E in Hl.
  destruct (list_truthy _); [|done].
  apply (inj Some), strs_inj in Hl. subst l.
  split; [exact N|]. apply Forall_forall. intros x Hx. apply M in Hx.
  apply (findall_from_sound email_pattern eq_refl) in Hx as [O L].
  split; [exact O | by apply email_words].
Qed.

Lemma X1_on_the_contact_page :
  @_extract_contact_info (Dom.soup []) contact_page
  = Some {[ "emails" := strs ["a@b.com"]; "phones" := strs ["0"] ]}
  /\ ({[ "emails" := strs ["a@b.com"]; "phones" := strs ["0"] ]} : pydict)
       !! "emails" = Some (strs ["a@b.com"])
  /\ NoDup ["a@b.com"]
  /\ Forall (fun x => occurs_in x (@get_text (Dom.soup []) contact_page))
       ["a@b.com"].
Proof.
  assert (H1 : @_extract_contact_info (Dom.soup []) contact_page
               = Some {[ "emails" := strs ["a@b.com"];
                         "phones" := strs ["0"] ]})
    by (vm_compute; reflexivity).
  assert (H2 : ({[ "emails" := strs ["a@b.com"]; "phones" := strs ["0"] ]}
                 : pydict) !! "emails" = Some (strs ["a@b.com"]))
    by (vm_compute; reflexivity).
  split; [exact H1|]. split; [exact H2|].
  destruct (@X1_emails_come_from_the_page (Dom.soup []) contact_page _ _ H1 H2)
    as [N F].
  split; [exact N|].
  eapply Forall_impl; [exact F|]. by intros x [O _].
Defined.


Lemma deadline_page_example :
  @_extract_deadlines (Dom.soup []) deadline_page = ["March 15th, 2025"]
  /\ @_extract_deadlines (Dom.soup []) page20 = [].
Proof. split; vm_compute; reflexivity. Qed.

(** ** [strip] *)

Lemma lstrip_starts_clean (s : string) : starts_clean (lstrip s).
Proof.
  induction s as [|c s IH]; [exact I|]. cbn [lstrip].
  destruct (is_space c) eqn:E; [exact IH | exact E].
Qed.

Lemma rstrip_ends_clean (s : string) : ends_clean (rstrip s).
Proof.
  induction s as [|c s IH]; [exact I|]. cbn [rstrip].
  destruct (rstrip s) as [|d t] eqn:E.
  - destruct (is_space c) eqn:Hc; [exact I | exact Hc].
  - exact IH.
Qed.

Lemma rstrip_keeps_the_start (s : string) :
  starts_clean s -> starts_clean (rstrip s).
Proof.
  destruct s as [|c s]; [done|]. cbn [starts_clean rstrip]. intros Hc.
  destruct (rstrip s) as [|d t]; [by rewrite Hc | exact Hc].
Qed.

Lemma strip_is_clean (s : string) :
  starts_clean (strip s) /\ ends_clean (strip s).
Proof.
  unfold strip. split.
  - apply rstrip_keeps_the_start, lstrip_starts_clean.
  - apply rstrip_ends_clean.
Qed.

(** X3. Requirements extraction returns at most 3 texts. The texts of
    the requirements and of the programs come in the order of the matched
    elements, and none of them has white space at its start or at its
    end. *)
Theorem X3_extracted_texts_are_stripped `{BS : BeautifulSoup} (soup : Tag) :
  length (_extract_admission_requirements soup) <= 3
  /\ Forall (fun t => starts_clean t /\ ends_clean t)
       (_extract_admission_requirements soup)
  /\ Forall (fun t => starts_clean t /\ ends_clean t)
       (_extract_programs soup)
  /\ _extract_admission_requirements soup
     `sublist_of` (block_text <$> matched_sections soup)
  /\ _extract_programs soup
     `sublist_of` ((fun e => strip (get_text e))
                     <$> find_all soup ["li"; "div"] program_pattern).
Proof.
  unfold _extract_admission_requirements, _extract_programs.
  rewrite requirements_loop, programs_loop. cbn [app].
  split; [|split; [|split; [|split]]].
  - etrans; [apply length_filter|]. rewrite length_fmap, length_take. lia.
  - apply Forall_forall. intros t [_ Ht]%list_elem_of_filter.
    apply list_elem_of_fmap in Ht as (e & -> & _). apply strip_is_clean.
  - apply Forall_forall. intros t [_ Ht]%list_elem_of_filter.
    apply list_elem_of_fmap in Ht as (e & -> & _). apply strip_is_clean.
  - etrans; [apply sublist_filter|].
    apply fmap_sublist, sublist_take.
  - etrans; [apply sublist_filter|].
    apply fmap_sublist, sublist_take.
Qed.

(** ** Optional fields *)

(** X4. The dictionary built from an admissions page holds a list of
    requirements, of deadlines or of programs only when the extractor
    found some: a key is absent rather than bound to an empty list. Its
    keys are among the accessibility flag and these three. Likewise the
    dictionary built from a main page holds a contact only when one was
    found, and that contact is never an empty dictionary. *)
Theorem X4_fields_are_absent_rather_than_empty `{BS : BeautifulSoup}
    (soup : Tag) (t : string) :
  admissions_page_data soup !! "admission_requirements"
  = match _extract_admission_requirements soup with
    | [] => None
    | l => Some (strs l)
    end
  /\ admissions_page_data soup !! "deadlines"
     = match _extract_deadlines soup with [] => None | l => Some (strs l) end
  /\ admissions_page_data soup !! "programs"
     = match _extract_programs soup with [] => None | l => Some (strs l) end
  /\ dom (admissions_page_data soup)
     ⊆ ({[ "admissions_url_accessible"; "admission_requirements";
           "deadlines"; "programs" ]} : gset string)
  /\ main_page_data soup t !! "contact" = VDict <$> _extract_contact_info soup
  /\ _extract_contact_info soup <> Some ∅
  /\ dom (main_page_data soup t)
     ⊆ ({[ "url_accessible"; "last_checked"; "description"; "contact" ]}
          : gset string).
Proof.
  split; [|split; [|split; [|split; [|split; [|split]]]]].
  - unfold admissions_page_data.
    destruct (_extract_admission_requirements soup),
      (_extract_deadlines soup), (_extract_programs soup); reflexivity.
  - unfold admissions_page_data.
    destruct (_extract_admission_requirements soup),
      (_extract_deadlines soup), (_extract_programs soup); reflexivity.
  - unfold admissions_page_data.
    destruct (_extract_admission_requirements soup),
      (_extract_deadlines soup), (_extract_programs soup); reflexivity.
  - unfold admissions_page_data.
    destruct (list_truthy (_extract_admission_requirements soup)),
      (list_truthy (_extract_deadlines soup)),
      (list_truthy (_extract_programs soup));
      rewrite ?dom_insert_L, dom_singleton_L; set_solver.
  - apply main_page_data_lookup.
  - unfold _extract_contact_info.
    destruct (list_truthy (findall email_pattern (get_text soup))),
      (list_truthy (findall phone_pattern (get_text soup)));
      rewrite ?dict_truthy_insert; cbn; intros [= H]; revert H;
      apply insert_non_empty.
  - unfold main_page_data.
    destruct (find soup "meta" ("name", "description")),
      (_extract_contact_info soup);
      rewrite ?dom_insert_L, dom_singleton_L; set_solver.
Qed.

(** ** The fallback table *)

(** X5. [_get_fallback_university_data] answers every code. For KNUST,
    UG and UCC the record has five entries and its status is
    fallback_data; for any other code it is the dictionary with the single
    entry status = no_data_available. The result never has a key of a
    scraped record. *)
Theorem X5_fallback_answers_every_code (code : string) :
  _get_fallback_university_data code !! "status"
  = Some (VStr (if bool_decide (code ∈ ["KNUST"; "UG"; "UCC"])
                then "fallback_data" else "no_data_available"))
  /\ dom (_get_fallback_university_data code)
     = (if bool_decide (code ∈ ["KNUST"; "UG"; "UCC"])
        then list_to_set fallback_keys else {[ "status" ]} : gset string)
  /\ Forall (fun k => _get_fallback_university_data code !! k = None)
       scraped_keys.
Proof.
  unfold _get_fallback_university_data, fallback_data.
  destruct (decide (code = "KNUST")) as [->|N1];
    [|destruct (decide (code = "UG")) as [->|N2];
      [|destruct (decide (code = "UCC")) as [->|N3]]].
  - split; [reflexivity|]. split; [|repeat constructor].
    apply set_eq. intros k. vm_compute. tauto.
  - split; [reflexivity|]. split; [|repeat constructor].
    apply set_eq. intros k. vm_compute. tauto.
  - split; [reflexivity|]. split; [|repeat constructor].
    apply set_eq. intros k. vm_compute. tauto.
  - rewrite !lookup_insert_ne by done. rewrite lookup_singleton_ne by done.
    cbn [default].
    rewrite bool_decide_eq_false_2 by set_solver.
    split; [reflexivity|]. split; [apply dom_singleton_L|repeat constructor].
Qed.

(* ===================================================================== *)
(** * What each part of a run does to the outside *)
(* ===================================================================== *)

Lemma emits_only_weaken {A} (P Q : event -> Prop) (m : M A) :
  (forall e, P e -> Q e) -> emits_only P m -> emits_only Q m.
Proof.
  intros PQ H w s. destruct (H w s) as (evs & T & F).
  exists evs. split; [exact T|]. by eapply Forall_impl.
Qed.

Lemma emits_only_ret {A} P (a : A) : emits_only P (mret a).
Proof. intros w s. exists []. by rewrite app_nil_r. Qed.

Lemma emits_only_raise {A} P (e : Exn) : emits_only P (@raise A e).
Proof. intros w s. exists []. by rewrite app_nil_r. Qed.

Lemma emits_only_get_self P : emits_only P get_self.
Proof. intros w s. exists []. by rewrite app_nil_r. Qed.

Lemma emits_only_emit (P : event -> Prop) (e : event) :
  P e -> emits_only P (emit e).
Proof. intros H w s. exists [e]. split; [done | by constructor]. Qed.

Lemma emits_only_log (P : event -> Prop) lvl msg :
  P (EvLog lvl msg) -> emits_only P (log lvl msg).
Proof. apply emits_only_emit. Qed.

Lemma emits_only_set_university P code r : emits_only P (set_university code r).
Proof. intros w s. exists []. by rewrite app_nil_r. Qed.

Lemma emits_only_set_scholarships P d : emits_only P (set_scholarships d).
Proof. intros w s. exists []. by rewrite app_nil_r. Qed.

Lemma emits_only_set_cut_off_points P d : emits_only P (set_cut_off_points d).
Proof. intros w s. exists []. by rewrite app_nil_r. Qed.

Lemma emits_only_now_isoformat P : emits_only P now_isoformat.
Proof. intros w s. exists []. by rewrite app_nil_r. Qed.

Lemma emits_only_answer P url : emits_only P (answer url).
Proof.
  intros w s. exists []. unfold after, answer.
  destruct (http_get w url); by rewrite app_nil_r.
Qed.

Lemma emits_only_response_text P body : emits_only P (response_text body).
Proof. destruct body; [apply emits_only_raise | apply emits_only_ret]. Qed.

Lemma emits_only_sleep (P : event -> Prop) secs :
  P (EvSleep secs) -> emits_only P (sleep secs).
Proof.
  intros H. by apply emits_only_emit.
Qed.

Lemma emits_only_json_dump (P : event -> Prop) path doc :
  P (EvWrite path doc) -> emits_only P (json_dump path doc).
Proof.
  intros H w s. unfold after, json_dump. destruct (write_raises w path).
  - exists []. by rewrite app_nil_r.
  - exists [EvWrite path doc]. split; [done | by constructor].
Qed.

Lemma emits_only_replace_one (P : event -> Prop) coll f doc :
  P (EvReplace coll f doc) -> emits_only P (replace_one coll f doc).
Proof.
  intros H w s. unfold after, replace_one.
  destruct (replace_raises w coll f).
  - exists []. by rewrite app_nil_r.
  - exists [EvReplace coll f doc]. split; [done | by constructor].
Qed.

Lemma emits_only_bind {A B} P (m : M A) (f : A -> M B) :
  emits_only P m -> (forall a, emits_only P (f a)) -> emits_only P (m ≫= f).
Proof.
  intros Hm Hf w s. destruct (Hm w s) as (e1 & T1 & F1).
  unfold after in *. rewrite bind_run.
  destruct (m w s) as [[e|a] s1]; cbn [snd] in *.
  - by exists e1.
  - destruct (Hf a w s1) as (e2 & T2 & F2). unfold after in T2.
    exists (e1 ++ e2). rewrite T2, T1, app_assoc.
    split; [done | by apply Forall_app_2].
Qed.

Lemma emits_only_try {A} P (body : M A) (handler : Exn -> M A) :
  emits_only P body -> (forall e, emits_only P (handler e)) ->
  emits_only P (try_except body handler).
Proof.
  intros Hm Hf w s. destruct (Hm w s) as (e1 & T1 & F1).
  unfold after, try_except in *.
  destruct (body w s) as [[e|a] s1]; cbn [snd] in *.
  - destruct (Hf e w s1) as (e2 & T2 & F2). unfold after in T2.
    exists (e1 ++ e2). rewrite T2, T1, app_assoc.
    split; [done | by apply Forall_app_2].
  - by exists e1.
Qed.

Lemma emits_only_for_each {A} P (l : list A) (f : A -> M unit) :
  (forall x, emits_only P (f x)) -> emits_only P (for_each l f).
Proof.
  intros Hf. induction l as [|x l IH]; cbn [for_each].
  - apply emits_only_ret.
  - apply emits_only_bind; [apply Hf | intros _; exact IH].
Qed.

(** The same, for the data fields. *)
Lemma keeps_data_bind {A B} (m : M A) (f : A -> M B) :
  keeps_data m -> (forall a, keeps_data (f a)) -> keeps_data (m ≫= f).
Proof.
  intros Hm Hf w s. destruct (Hm w s) as (U1 & S1 & C1).
  unfold after in *. rewrite bind_run.
  destruct (m w s) as [[e|a] s1]; cbn [snd] in *; [done|].
  destruct (Hf a w s1) as (U2 & S2 & C2). unfold after in *.
  by rewrite U2, S2, C2.
Qed.

Lemma keeps_data_try {A} (body : M A) (handler : Exn -> M A) :
  keeps_data body -> (forall e, keeps_data (handler e)) ->
  keeps_data (try_except body handler).
Proof.
  intros Hm Hf w s. destruct (Hm w s) as (U1 & S1 & C1).
  unfold after, try_except in *.
  destruct (body w s) as [[e|a] s1]; cbn [snd] in *; [|done].
  destruct (Hf e w s1) as (U2 & S2 & C2). unfold after in *.
  by rewrite U2, S2, C2.
Qed.

Lemma keeps_data_for_each {A} (l : list A) (f : A -> M unit) :
  (forall x, keeps_data (f x)) -> keeps_data (for_each l f).
Proof.
  intros Hf. induction l as [|x l IH]; cbn [for_each].
  - by intros w s.
  - apply keeps_data_bind; [apply Hf | intros _; exact IH].
Qed.

Lemma keeps_data_log lvl msg : keeps_data (log lvl msg).
Proof. by intros w s. Qed.

Lemma keeps_data_now : keeps_data now.
Proof. by intros w s. Qed.

Lemma keeps_data_get_self : keeps_data get_self.
Proof. by intros w s. Qed.

Lemma keeps_data_raise {A} e : keeps_data (@raise A e).
Proof. by intros w s. Qed.

Lemma keeps_data_json_dump path doc : keeps_data (json_dump path doc).
Proof.
  intros w s. unfold after, json_dump. by destruct (write_raises w path).
Qed.

Lemma keeps_data_replace_one coll f doc : keeps_data (replace_one coll f doc).
Proof.
  intros w s. unfold after, replace_one.
  by destruct (replace_raises w coll f).
Qed.

Lemma keeps_data_upsert coll kn entry : keeps_data (upsert coll kn entry).
Proof.
  destruct entry as [k d]. unfold upsert.
  apply keeps_data_bind; [apply keeps_data_now|].
  intros t. apply keeps_data_replace_one.
Qed.

Lemma keeps_data_save_to_database : keeps_data _save_to_database.
Proof.
  unfold _save_to_database. apply keeps_data_try.
  - apply keeps_data_bind; [apply keeps_data_get_self|]. intros self.
    apply keeps_data_bind;
      [apply keeps_data_for_each; intros x; apply keeps_data_upsert|].
    intros _. apply keeps_data_bind;
      [apply keeps_data_for_each; intros x; apply keeps_data_upsert|].
    intros _. apply keeps_data_bind; [apply keeps_data_upsert|].
    intros _. apply keeps_data_log.
  - intros e. apply keeps_data_log.
Qed.

Lemma keeps_data_save_data : keeps_data _save_data.
Proof.
  unfold _save_data. apply keeps_data_bind; [apply keeps_data_log|].
  intros _. apply keeps_data_try.
  - apply keeps_data_bind; [apply keeps_data_get_self|]. intros self.
    apply keeps_data_bind; [apply keeps_data_json_dump|]. intros _.
    apply keeps_data_bind; [apply keeps_data_json_dump|]. intros _.
    apply keeps_data_bind; [apply keeps_data_json_dump|]. intros _.
    apply keeps_data_bind; [apply keeps_data_save_to_database|]. intros _.
    apply keeps_data_log.
  - intros e. apply keeps_data_bind; [apply keeps_data_log|].
    intros _. apply keeps_data_raise.
Qed.

Lemma emits_only_now P : emits_only P now.
Proof.
  unfold now. apply emits_only_bind; [apply emits_only_now_isoformat|].
  intros t. apply emits_only_ret.
Qed.

Lemma emits_only_upsert (P : event -> Prop) coll kn entry :
  (forall f doc, P (EvReplace coll f doc)) ->
  emits_only P (upsert coll kn entry).
Proof.
  intros H. destruct entry as [k d]. unfold upsert.
  apply emits_only_bind; [apply emits_only_now|].
  intros t. apply emits_only_replace_one, H.
Qed.

Lemma emits_only_save_to_database : emits_only is_store _save_to_database.
Proof.
  unfold _save_to_database. apply emits_only_try.
  - apply emits_only_bind; [apply emits_only_get_self|]. intros self.
    apply emits_only_bind;
      [apply emits_only_for_each; intros x; by apply emits_only_upsert|].
    intros _. apply emits_only_bind;
      [apply emits_only_for_each; intros x; by apply emits_only_upsert|].
    intros _. apply emits_only_bind; [by apply emits_only_upsert|].
    intros _. by apply emits_only_log.
  - intros e. by apply emits_only_log.
Qed.

Section FetchEvents.

Context `{BS : BeautifulSoup}.

Lemma emits_only_session_get (P : event -> Prop) url :
  P (EvGet url) -> emits_only P (session_get url).
Proof.
  intros H. unfold session_get.
  apply emits_only_bind; [by apply emits_only_emit|].
  intros _. apply emits_only_answer.
Qed.

Lemma emits_only_fetch_main url :
  emits_only is_fetching (_fetch_university_main_page url).
Proof.
  unfold _fetch_university_main_page. apply emits_only_try.
  - apply emits_only_bind; [by apply emits_only_session_get|].
    intros [status body]. destruct (Z.eqb status 200).
    + apply emits_only_bind; [apply emits_only_response_text|]. intros html.
      apply emits_only_bind; [apply emits_only_now_isoformat|]. intros t.
      apply emits_only_ret.
    + apply emits_only_bind; [by apply emits_only_log|]. intros _.
      apply emits_only_ret.
  - intros e. apply emits_only_bind; [by apply emits_only_log|]. intros _.
    apply emits_only_ret.
Qed.

Lemma emits_only_fetch_admissions url :
  emits_only is_fetching (_fetch_admissions_page url).
Proof.
  unfold _fetch_admissions_page. apply emits_only_try.
  - apply emits_only_bind; [by apply emits_only_session_get|].
    intros [status body]. destruct (Z.eqb status 200).
    + apply emits_only_bind; [apply emits_only_response_text|]. intros html.
      apply emits_only_ret.
    + apply emits_only_ret.
  - intros e. apply emits_only_bind; [by apply emits_only_log|]. intros _.
    apply emits_only_ret.
Qed.

Lemma emits_only_scrape_university src :
  emits_only is_fetching (scrape_university src).
Proof.
  destruct src as [code cfg]. unfold scrape_university.
  apply emits_only_try.
  - apply emits_only_bind; [by apply emits_only_log|]. intros _.
    apply emits_only_bind; [apply emits_only_fetch_main|]. intros main.
    apply emits_only_bind; [apply emits_only_fetch_admissions|]. intros adm.
    apply emits_only_bind; [apply emits_only_now_isoformat|]. intros t.
    apply emits_only_bind; [apply emits_only_set_university|]. intros _.
    by apply emits_only_sleep.
  - intros e. apply emits_only_bind; [by apply emits_only_log|]. intros _.
    apply emits_only_set_university.
Qed.

Lemma emits_only_scrape_universities :
  emits_only is_fetching _scrape_universities.
Proof.
  unfold _scrape_universities.
  apply emits_only_bind; [by apply emits_only_log|]. intros _.
  apply emits_only_for_each. apply emits_only_scrape_university.
Qed.

End FetchEvents.

Section RunEvents.

Context `{BS : BeautifulSoup}.

Lemma loop_requests (l : list (string * source_config)) w s :
  requests (events (for_each l scrape_university) w s)
  = concat (source_requests <$> l).
Proof.
  revert s; induction l as [|src l IH]; intros s.
  - unfold events, after. cbn. by rewrite drop_all.
  - rewrite loop_events_cons, requests_app, scrape_university_requests, IH.
    reflexivity.
Qed.

Lemma scrape_universities_requests w s :
  requests (events _scrape_universities w s)
  = concat (source_requests <$> university_sources).
Proof.
  set (s0 := add_event (EvLog INFO "Scraping university data...") s).
  destruct (loop_trace_extends university_sources w s0) as (evs & T).
  rewrite <- (loop_requests university_sources w s0).
  rewrite (events_of_extension (for_each university_sources scrape_university)
             w s0 evs T).
  rewrite (events_of_extension _scrape_universities w s
             (EvLog INFO "Scraping university data..." :: evs)); [done|].
  unfold after, _scrape_universities in *. rewrite bind_run.
  change (log INFO _ w s) with (@inr Exn _ tt, s0). cbn beta iota.
  rewrite T. unfold s0. cbn [trace add_event]. by rewrite <- app_assoc.
Qed.

Lemma fetching_events_do_not_persist (evs : list event) :
  Forall is_fetching evs -> written evs = [] /\ upserts evs = [].
Proof.
  induction 1 as [|e evs He _ [IH1 IH2]]; [done|].
  destruct e; try done; cbn; by rewrite ?IH1, ?IH2.
Qed.

End RunEvents.

(** X6. However the requests end, a run of [_scrape_universities] sends
    exactly six requests: for each source of the registry, in order, its
    main page and then its admissions page, each once. Nothing is
    retried. *)
Theorem X6_each_page_is_requested_once `{BS : BeautifulSoup}
    (w : World) (s : Scraper) :
  requests (events _scrape_universities w s)
  = [ "https://www.knust.edu.gh"; "https://www.knust.edu.gh/admissions";
      "https://www.ug.edu.gh"; "https://www.ug.edu.gh/admissions";
      "https://www.ucc.edu.gh"; "https://www.ucc.edu.gh/admissions" ].
Proof. by rewrite scrape_universities_requests. Qed.

(** X7. Scraping the universities does not persist anything and touches
    only the university records: it writes no file and does no upsert,
    its events are log lines, requests and sleeps, and it leaves the
    scholarship and cut-off data as they were. *)
Theorem X7_scraping_does_not_persist `{BS : BeautifulSoup}
    (w : World) (s : Scraper) :
  Forall is_fetching (events _scrape_universities w s)
  /\ written (events _scrape_universities w s) = []
  /\ upserts (events _scrape_universities w s) = []
  /\ scholarships_data (after _scrape_universities w s) = scholarships_data s
  /\ cut_off_points (after _scrape_universities w s) = cut_off_points s.
Proof.
  destruct (emits_only_scrape_universities w s) as (evs & T & F).
  rewrite (events_of_extension _scrape_universities w s evs T).
  destruct (fetching_events_do_not_persist evs F) as [W U].
  destruct (scrape_universities_spec w s) as (s' & E & Hs & Hc & _).
  unfold after. rewrite E. by repeat split.
Qed.

Section RecordShape.

Context `{BS : BeautifulSoup}.



End RecordShape.





(* ===================================================================== *)
(** * The static tables *)
(* ===================================================================== *)

(** X10. Refreshing the scholarships and the cut-off points sends no
    request and never raises: it only logs. Each replaces the data held
    before by its built-in table - four scholarship programmes, the
    cut-off points with their year - stamped with the readings of the
    clock, and leaves the university records as they were. *)
Theorem X10_static_tables_replace_the_data (w : World) (s : Scraper) :
  (result _scrape_scholarships w s = inr tt
   /\ scholarships_data (after _scrape_scholarships w s)
      = enhanced_scholarships (clock w (ticks s)) (clock w (1 + ticks s))
          (clock w (2 + ticks s)) (clock w (3 + ticks s))
   /\ size (scholarships_data (after _scrape_scholarships w s)) = 4
   /\ universities_data (after _scrape_scholarships w s) = universities_data s
   /\ Forall is_log (events _scrape_scholarships w s))
  /\ (result _scrape_cut_off_points w s = inr tt
      /\ cut_off_points (after _scrape_cut_off_points w s)
         = current_cut_offs (clock w (ticks s))
      /\ universities_data (after _scrape_cut_off_points w s)
         = universities_data s
      /\ Forall is_log (events _scrape_cut_off_points w s)).
Proof.
  split.
  - split; [reflexivity|]. split; [reflexivity|]. split; [reflexivity|].
    split; [reflexivity|].
    rewrite (events_of_extension _scrape_scholarships w s
               [EvLog INFO "Scraping scholarship data...";
                EvLog INFO "Updated 4 scholarship programs"]).
    + by repeat constructor.
    + unfold after, _scrape_scholarships, log, emit, now_isoformat,
        set_scholarships, mbind, M_bind.
      cbn [snd trace add_event with_scholarships tick].
      rewrite <- app_assoc. reflexivity.
  - split; [reflexivity|]. split; [reflexivity|]. split; [reflexivity|].
    rewrite (events_of_extension _scrape_cut_off_points w s
               [EvLog INFO "Updating cut-off points...";
                EvLog INFO "Cut-off points updated successfully"]).
    + by repeat constructor.
    + unfold after, _scrape_cut_off_points, log, emit, now_isoformat,
        set_cut_off_points, mbind, M_bind.
      cbn [snd trace add_event with_cut_off_points tick].
      rewrite <- app_assoc. reflexivity.
Qed.

(* ===================================================================== *)
(** * Saving *)
(* ===================================================================== *)

(** The events of [_save_data], by the first write that is refused. *)
Lemma save_data_events (w : World) (s : Scraper) :
  exists db : list event,
    Forall is_store db
    /\ events _save_data w s
       = EvLog INFO "Saving scraped data..." ::
         match write_raises w (in_data_dir "ghana_universities.json") with
         | Some e => [EvLog ERROR ("Error saving data: " +:+ e)]
         | None =>
             EvWrite (in_data_dir "ghana_universities.json")
               (dicts (universities_data s)) ::
             match write_raises w (in_data_dir "scholarships.json") with
             | Some e => [EvLog ERROR ("Error saving data: " +:+ e)]
             | None =>
                 EvWrite (in_data_dir "scholarships.json")
                   (dicts (scholarships_data s)) ::
                 match write_raises w (in_data_dir "cut_off_points.json") with
                 | Some e => [EvLog ERROR ("Error saving data: " +:+ e)]
                 | None =>
                     EvWrite (in_data_dir "cut_off_points.json")
                       (VDict (cut_off_points s)) ::
                     db ++ [EvLog INFO "All data saved successfully!"]
                 end
             end
         end
    /\ result _save_data w s
       = match write_failure w with Some e => inl e | None => inr tt end.
Proof.
  set (s0 := add_event (EvLog INFO "Saving scraped data...") s).
  set (s1 := add_event (EvWrite (in_data_dir "ghana_universities.json")
                          (dicts (universities_data s))) s0).
  set (s2 := add_event (EvWrite (in_data_dir "scholarships.json")
                          (dicts (scholarships_data s))) s1).
  set (s3 := add_event (EvWrite (in_data_dir "cut_off_points.json")
                          (VDict (cut_off_points s))) s2).
  destruct (emits_only_save_to_database w s3) as (db & T & F).
  destruct (save_to_database_returns w s3) as (s4 & E4).
  unfold after in T. rewrite E4 in T. cbn [snd] in T.
  exists db. split; [exact F|].
  assert (R : _save_data w s
              = match write_raises w (in_data_dir "ghana_universities.json") with
                | Some e =>
                    (inl e, add_event (EvLog ERROR ("Error saving data: " +:+ e)) s0)
                | None =>
                    match write_raises w (in_data_dir "scholarships.json") with
                    | Some e =>
                        (inl e,
                         add_event (EvLog ERROR ("Error saving data: " +:+ e)) s1)
                    | None =>
                        match write_raises w (in_data_dir "cut_off_points.json") with
                        | Some e =>
                            (inl e,
                             add_event
                               (EvLog ERROR ("Error saving data: " +:+ e)) s2)
                        | None =>
                            (inr tt,
                             add_event
                               (EvLog INFO "All data saved successfully!") s4)
                        end
                    end
                end).
  { unfold _save_data, try_except. rewrite bind_run.
    change (log INFO "Saving scraped data..." w s) with (@inr Exn _ tt, s0).
    cbn beta iota. rewrite bind_run.
    change (get_self w s0) with (@inr Exn _ s0, s0). cbn beta iota.
    rewrite bind_run. unfold json_dump at 1.
    destruct (write_raises w (in_data_dir "ghana_universities.json")) as [e|];
      [reflexivity|].
    rewrite bind_run. unfold json_dump at 1.
    destruct (write_raises w (in_data_dir "scholarships.json")) as [e|];
      [reflexivity|].
    rewrite bind_run. unfold json_dump at 1.
    destruct (write_raises w (in_data_dir "cut_off_points.json")) as [e|];
      [reflexivity|].
    rewrite bind_run.
    change (_save_to_database w
              (add_event (EvWrite (in_data_dir "cut_off_points.json")
                            (VDict (cut_off_points s0)))
                 (add_event (EvWrite (in_data_dir "scholarships.json")
                               (dicts (scholarships_data s0)))
                    (add_event (EvWrite (in_data_dir "ghana_universities.json")
                                  (dicts (universities_data s0))) s0))))
      with (_save_to_database w s3).
    rewrite E4. reflexivity. }
  split.
  - apply events_of_extension. unfold after. rewrite R.
    destruct (write_raises w (in_data_dir "ghana_universities.json")) as [e|];
      [|destruct (write_raises w (in_data_dir "scholarships.json")) as [e|];
        [|destruct (write_raises w (in_data_dir "cut_off_points.json"))
            as [e|]]];
      cbn [snd trace add_event]; rewrite ?T; unfold s3, s2, s1, s0;
      cbn [trace add_event]; rewrite <- ?app_assoc; reflexivity.
  - unfold result, write_failure. rewrite R.
    destruct (write_raises w (in_data_dir "ghana_universities.json")) as [e|];
      [reflexivity|].
    destruct (write_raises w (in_data_dir "scholarships.json")) as [e|];
      [reflexivity|].
    by destruct (write_raises w (in_data_dir "cut_off_points.json")).
Qed.

Lemma upserts_of_replace_events (us : list (string * pyval * pyval)) :
  upserts (replace_event <$> us) = us.
Proof.
  induction us as [|[[c f] d] us IH]; [done|].
  exact (f_equal (cons (c, f, d)) IH).
Qed.

(** With a store that accepts every write, a loop of upserts does one
    upsert per entry, in order, each stamped with its own clock
    reading. *)
Lemma for_each_upsert_accepting (w : World) coll kn
    (l : list (string * pydict)) :
  (forall c f, replace_raises w c f = None) ->
  forall s, exists s',
    for_each l (upsert coll kn) w s = (inr tt, s')
    /\ ticks s' = ticks s + length l
    /\ universities_data s' = universities_data s
    /\ scholarships_data s' = scholarships_data s
    /\ cut_off_points s' = cut_off_points s
    /\ trace s'
       = trace s
         ++ (replace_event <$> imap (upsert_of w coll kn (ticks s)) l).
Proof.
  intros Hw. induction l as [|[k d] l IH]; intros s.
  - exists s. cbn. rewrite Nat.add_0_r, app_nil_r. by repeat split.
  - set (s1 := add_event
                 (EvReplace coll (VDict {[ kn := VStr k ]})
                    (upsert_doc kn k d (clock w (ticks s)))) (tick s)).
    assert (E : upsert coll kn (k, d) w s = (inr tt, s1)).
    { unfold upsert, now, now_isoformat, replace_one, mbind, M_bind, mret,
        M_ret. by rewrite Hw. }
    destruct (IH s1) as (s' & El & Tk & U & S & C & T).
    exists s'. cbn [for_each]. rewrite bind_run, E. cbn beta iota.
    split; [exact El|]. split; [rewrite Tk; cbn; lia|].
    split; [by rewrite U|]. split; [by rewrite S|]. split; [by rewrite C|].
    rewrite T, imap_cons. cbn [trace s1 add_event tick ticks fmap list_fmap].
    rewrite <- app_assoc. cbn [app]. do 2 f_equal.
    + unfold replace_event, upsert_of. cbn. by rewrite Nat.add_0_r.
    + f_equal. apply imap_ext. intros i x _. unfold upsert_of. cbn.
      do 3 f_equal. lia.
Qed.

(** With a store that accepts every write, the events of
    [_save_to_database]: the upserts of the university records, of the
    scholarships and of the cut-off points, in the order of the entries,
    and the log line. *)
Lemma save_to_database_events (w : World) (s : Scraper) :
  (forall coll f, replace_raises w coll f = None) ->
  exists n1 n2 : nat,
    events _save_to_database w s
    = (replace_event
         <$> (imap (upsert_of w "universities_data" "university_code"
                      (ticks s)) (items (universities_data s))
              ++ imap (upsert_of w "scholarships_data" "scholarship_id" n1)
                   (items (scholarships_data s))
              ++ imap (upsert_of w "cut_off_points" "academic_year" n2)
                   [("2024_2025", cut_off_points s)]))
      ++ [EvLog INFO "Data saved to MongoDB Atlas"].
Proof.
  intros Hw.
  set (us := items (universities_data s)).
  set (ss := items (scholarships_data s)).
  destruct (for_each_upsert_accepting w "universities_data" "university_code"
              us Hw s) as (s1 & E1 & K1 & _ & _ & _ & T1).
  destruct (for_each_upsert_accepting w "scholarships_data" "scholarship_id"
              ss Hw s1) as (s2 & E2 & K2 & _ & _ & _ & T2).
  destruct (for_each_upsert_accepting w "cut_off_points" "academic_year"
              [("2024_2025", cut_off_points s)] Hw s2)
    as (s3 & E3 & _ & _ & _ & _ & T3).
  exists (ticks s1), (ticks s2).
  apply events_of_extension.
  unfold after, _save_to_database, try_except.
  rewrite bind_run. change (get_self w s) with (@inr Exn _ s, s).
  cbn beta iota. fold us ss. rewrite bind_run, E1. cbn beta iota.
  rewrite bind_run, E2. cbn beta iota.
  rewrite bind_run.
  cbn [for_each] in E3. rewrite bind_run in E3.
  destruct (upsert "cut_off_points" "academic_year"
              ("2024_2025", cut_off_points s) w s2) as [[e|[]] s3'];
    [discriminate E3|].
  injection E3 as ->. cbn [snd log emit trace add_event].
  rewrite T3, T2, T1, !fmap_app, <- !app_assoc. reflexivity.
Qed.

(** X12. With a store that accepts every write, [_save_to_database] does
    one upsert for each university record of the state, filtered by the
    code of the university and carrying the record as data, one for each
    scholarship likewise, and one for the cut-off points under the year
    2024_2025: as many upserts as there are entries, plus one. *)
Theorem X12_every_entry_is_upserted_by_its_key (w : World) (s : Scraper) :
  (forall coll f, replace_raises w coll f = None) ->
  (forall code r, universities_data s !! code = Some r ->
     exists t,
       ("universities_data", VDict {[ "university_code" := VStr code ]},
        upsert_doc "university_code" code r t)
       ∈ upserts (events _save_to_database w s))
  /\ (forall id r, scholarships_data s !! id = Some r ->
        exists t,
          ("scholarships_data", VDict {[ "scholarship_id" := VStr id ]},
           upsert_doc "scholarship_id" id r t)
          ∈ upserts (events _save_to_database w s))
  /\ (exists t,
        ("cut_off_points", VDict {[ "academic_year" := VStr "2024_2025" ]},
         upsert_doc "academic_year" "2024_2025" (cut_off_points s) t)
        ∈ upserts (events _save_to_database w s))
  /\ length (upserts (events _save_to_database w s))
     = size (universities_data s) + size (scholarships_data s) + 1.
Proof.
  intros Hw.
  destruct (save_to_database_events w s Hw) as (n1 & n2 & Ev).
  set (us := items (universities_data s)) in *.
  set (ss := items (scholarships_data s)) in *.
  rewrite Ev. unfold upserts at 1 2 3 4. rewrite omap_app.
  fold (upserts). change (omap _ [EvLog INFO "Data saved to MongoDB Atlas"])
    with (@nil (string * pyval * pyval)).
  rewrite app_nil_r.
  change (omap _ (replace_event <$> ?l)) with (upserts (replace_event <$> l)).
  rewrite upserts_of_replace_events.
  split; [|split; [|split]].
  - intros code r Hr. apply odict_lookup_items in Hr. fold us in Hr.
    apply list_elem_of_lookup in Hr as [i Hi].
    exists (clock w (ticks s + i)). apply elem_of_app. left.
    exact (elem_of_lookup_imap_2
             (upsert_of w "universities_data" "university_code" (ticks s))
             us (code, r) i Hi).
  - intros id r Hr. apply odict_lookup_items in Hr. fold ss in Hr.
    apply list_elem_of_lookup in Hr as [i Hi].
    exists (clock w (n1 + i)). apply elem_of_app. right.
    apply elem_of_app. left.
    exact (elem_of_lookup_imap_2
             (upsert_of w "scholarships_data" "scholarship_id" n1)
             ss (id, r) i Hi).
  - exists (clock w (n2 + 0)). apply elem_of_app. right.
    apply elem_of_app. right. cbn. apply list_elem_of_singleton. reflexivity.
  - rewrite !length_app, !length_imap. unfold us, ss, size, odict_size.
    cbn. lia.
Qed.

Lemma X12_with_one_record :
  (forall coll f, replace_raises calm coll f = None)
  /\ universities_data one_record !! "UG"
     = Some (_get_fallback_university_data "UG")
  /\ exists t,
       ("universities_data", VDict {[ "university_code" := VStr "UG" ]},
        upsert_doc "university_code" "UG"
          (_get_fallback_university_data "UG") t)
       ∈ upserts (events _save_to_database calm one_record).
Proof.
  split; [reflexivity|]. split; [reflexivity|].
  destruct (X12_every_entry_is_upserted_by_its_key calm one_record
              (fun _ _ => eq_refl)) as (H & _).
  apply H. reflexivity.
Defined.

Lemma emits_only_save_data : emits_only is_saving _save_data.
Proof.
  unfold _save_data.
  apply emits_only_bind; [by apply emits_only_log|].
  intros _. apply emits_only_try.
  - apply emits_only_bind; [apply emits_only_get_self|]. intros self.
    apply emits_only_bind; [by apply emits_only_json_dump|]. intros _.
    apply emits_only_bind; [by apply emits_only_json_dump|]. intros _.
    apply emits_only_bind; [by apply emits_only_json_dump|]. intros _.
    apply emits_only_bind.
    + eapply emits_only_weaken; [|apply emits_only_save_to_database].
      by intros [].
    + intros _. by apply emits_only_log.
  - intros e. apply emits_only_bind; [by apply emits_only_log|].
    intros _. apply emits_only_raise.
Qed.

(** X11. [_save_data] writes the three files in the order universities,
    scholarships, cut-off points, each with the data held in the state,
    and calls the store only after the three were written. The first
    write that is refused stops it: the files before it stay written, the
    files after it are not written, the store is not touched, the error is
    logged and raised again. *)
Theorem X11_files_are_written_before_the_store (w : World) (s : Scraper) :
  exists db : list event,
    Forall is_store db
    /\ events _save_data w s
       = EvLog INFO "Saving scraped data..." ::
         match write_raises w (in_data_dir "ghana_universities.json") with
         | Some e => [EvLog ERROR ("Error saving data: " +:+ e)]
         | None =>
             EvWrite (in_data_dir "ghana_universities.json")
               (dicts (universities_data s)) ::
             match write_raises w (in_data_dir "scholarships.json") with
             | Some e => [EvLog ERROR ("Error saving data: " +:+ e)]
             | None =>
                 EvWrite (in_data_dir "scholarships.json")
                   (dicts (scholarships_data s)) ::
                 match write_raises w (in_data_dir "cut_off_points.json") with
                 | Some e => [EvLog ERROR ("Error saving data: " +:+ e)]
                 | None =>
                     EvWrite (in_data_dir "cut_off_points.json")
                       (VDict (cut_off_points s)) ::
                     db ++ [EvLog INFO "All data saved successfully!"]
                 end
             end
         end
    /\ result _save_data w s
       = match write_failure w with Some e => inl e | None => inr tt end.
Proof. apply save_data_events. Qed.

Lemma second_write_fails_example :
  written (events _save_data second_write_fails init)
  = ["data/ghana_universities.json"]
  /\ upserts (events _save_data second_write_fails init) = []
  /\ result _save_data second_write_fails init = inl "Permission denied".
Proof. repeat split; vm_compute; reflexivity. Qed.

(** X13. [_save_to_database] never raises, whatever the store does. It
    changes none of the data of the scraper, writes no file and sends no
    request: its events are log lines and upserts. *)
Theorem X13_store_code_never_raises (w : World) (s : Scraper) :
  result _save_to_database w s = inr tt
  /\ universities_data (after _save_to_database w s) = universities_data s
  /\ scholarships_data (after _save_to_database w s) = scholarships_data s
  /\ cut_off_points (after _save_to_database w s) = cut_off_points s
  /\ Forall is_store (events _save_to_database w s)
  /\ written (events _save_to_database w s) = []
  /\ requests (events _save_to_database w s) = [].
Proof.
  destruct (save_to_database_returns w s) as (s' & E).
  destruct (keeps_data_save_to_database w s) as (U & S & C).
  destruct (emits_only_save_to_database w s) as (evs & T & F).
  rewrite (events_of_extension _save_to_database w s evs T).
  split; [unfold result; by rewrite E|].
  split; [exact U|]. split; [exact S|]. split; [exact C|].
  split; [exact F|].
  clear T. induction F as [|e evs He _ [IH1 IH2]]; [done|].
  destruct e; try done; cbn; by rewrite ?IH1, ?IH2.
Qed.

Section WholeRun.

Context `{BS : BeautifulSoup}.

(** How [scrape_all_data] ends: with the exception of a file write, after
    logging it, or normally, after logging the success. *)
Lemma scrape_all_data_run (w : World) (s : Scraper) :
  exists s1 s2 s3 s4,
    _scrape_universities w
      (add_event
         (EvLog INFO "Starting comprehensive Ghana university data scraping...")
         s) = (inr tt, s1)
    /\ _scrape_scholarships w s1 = (inr tt, s2)
    /\ _scrape_cut_off_points w s2 = (inr tt, s3)
    /\ s4 = after _save_data w s3
    /\ scrape_all_data w s
       = match write_failure w with
         | Some e =>
             (inl e, add_event (EvLog ERROR ("Scraping error: " +:+ e)) s4)
         | None =>
             (inr tt,
              add_event (EvLog INFO "Data scraping completed successfully!") s4)
         end.
Proof.
  set (s0 := add_event
               (EvLog INFO
                  "Starting comprehensive Ghana university data scraping...") s).
  destruct (scrape_universities_spec w s0) as (s1 & E1 & _).
  destruct (scrape_scholarships_returns w s1) as (s2 & E2).
  destruct (scrape_cut_off_points_returns w s2) as (s3 & E3).
  destruct (save_data_spec w s3) as (s4 & E4).
  exists s1, s2, s3, s4. split; [exact E1|]. split; [exact E2|].
  split; [exact E3|]. split; [unfold after; by rewrite E4|].
  unfold scrape_all_data, try_except. rewrite bind_run.
  change (log INFO _ w s) with (@inr Exn _ tt, s0). cbn beta iota.
  rewrite bind_run, E1. cbn beta iota. rewrite bind_run, E2. cbn beta iota.
  rewrite bind_run, E3. cbn beta iota. rewrite bind_run, E4.
  by destruct (write_failure w).
Qed.

End WholeRun.

Lemma emits_only_setup (P : event -> Prop) c :
  P (EvSetup c) -> emits_only P (setup c).
Proof.
  intros H w s. unfold after, setup. destruct (setup_raises w c).
  - exists []. by rewrite app_nil_r.
  - exists [EvSetup c]. split; [done | by constructor].
Qed.

Lemma emits_only_scrape_scholarships : emits_only is_log _scrape_scholarships.
Proof.
  unfold _scrape_scholarships.
  apply emits_only_bind; [by apply emits_only_log|]. intros _.
  do 4 (apply emits_only_bind; [apply emits_only_now_isoformat|]; intros ?).
  apply emits_only_bind; [apply emits_only_set_scholarships|]. intros _.
  by apply emits_only_log.
Qed.

Lemma emits_only_scrape_cut_off_points :
  emits_only is_log _scrape_cut_off_points.
Proof.
  unfold _scrape_cut_off_points.
  apply emits_only_bind; [by apply emits_only_log|]. intros _.
  apply emits_only_bind; [apply emits_only_now_isoformat|]. intros t.
  apply emits_only_bind; [apply emits_only_set_cut_off_points|]. intros _.
  by apply emits_only_log.
Qed.

Lemma setup_run c w s :
  setup c w s
  = match setup_raises w c with
    | Some e => (inl e, s)
    | None => (inr tt, add_event (EvSetup c) s)
    end.
Proof. reflexivity. Qed.

Section MainFacts.
Context `{BS : BeautifulSoup}.

Lemma emits_only_scrape_all_data :
  emits_only (fun e => is_fetching e \/ is_saving e) scrape_all_data.
Proof.
  unfold scrape_all_data.
  apply emits_only_bind; [apply emits_only_log; by left|]. intros _.
  apply emits_only_try.
  - apply emits_only_bind.
    { eapply emits_only_weaken; [|apply emits_only_scrape_universities].
      by left. }
    intros _. apply emits_only_bind.
    { eapply emits_only_weaken; [|apply emits_only_scrape_scholarships].
      intros []; try done. by left. }
    intros _. apply emits_only_bind.
    { eapply emits_only_weaken; [|apply emits_only_scrape_cut_off_points].
      intros []; try done. by left. }
    intros _. apply emits_only_bind.
    { eapply emits_only_weaken; [|apply emits_only_save_data]. by right. }
    intros _. apply emits_only_log. by left.
  - intros e. apply emits_only_bind; [apply emits_only_log; by left|].
    intros _. apply emits_only_raise.
Qed.

(** The events of a run end with its last log line. *)
Lemma scrape_all_data_events w s :
  exists evs,
    trace (after scrape_all_data w s) = trace s ++ evs ++ [closing_line w]
    /\ Forall (fun e => is_fetching e \/ is_saving e) evs
    /\ result scrape_all_data w s
       = match write_failure w with Some e => inl e | None => inr tt end.
Proof.
  destruct (scrape_all_data_run w s)
    as (s1 & s2 & s3 & s4 & E1 & E2 & E3 & E4 & R).
  set (s0 := add_event
               (EvLog INFO
                  "Starting comprehensive Ghana university data scraping...") s)
    in *.
  destruct (emits_only_scrape_universities w s0) as (v1 & T1 & F1).
  destruct (emits_only_scrape_scholarships w s1) as (v2 & T2 & F2).
  destruct (emits_only_scrape_cut_off_points w s2) as (v3 & T3 & F3).
  destruct (emits_only_save_data w s3) as (v4 & T4 & F4).
  unfold after in T1, T2, T3. rewrite E1 in T1. rewrite E2 in T2.
  rewrite E3 in T3. rewrite <- E4 in T4. cbn [snd] in T1, T2, T3.
  exists (EvLog INFO "Starting comprehensive Ghana university data scraping..."
          :: v1 ++ v2 ++ v3 ++ v4).
  split; [|split].
  - unfold after, closing_line. rewrite R.
    destruct (write_failure w); cbn [snd trace add_event];
      rewrite T4, T3, T2, T1; unfold s0; cbn [trace add_event];
      rewrite <- !app_assoc; cbn [app]; rewrite <- ?app_assoc; reflexivity.
  - constructor; [by left|].
    repeat apply Forall_app_2.
    + eapply Forall_impl; [exact F1|]. by left.
    + eapply Forall_impl; [exact F2|]. intros []; try done. by left.
    + eapply Forall_impl; [exact F3|]. intros []; try done. by left.
    + eapply Forall_impl; [exact F4|]. by right.
  - unfold result. rewrite R. by destruct (write_failure w).
Qed.

(** [init] is the scraper that the constructor builds. *)
Lemma constructor_gives_init (w : World) :
  setup_raises w NewStoreClient = None ->
  setup_raises w MakeDataDir = None ->
  __init__ w blank = (inr tt, init).
Proof.
  intros H1 H2. unfold __init__. rewrite !bind_run, setup_run, H1.
  rewrite bind_run.
  change (reset_data w ?s) with (@inr Exn _ tt, without_data s).
  cbn beta iota. by rewrite bind_run, setup_run, H2.
Qed.

(** How [main] goes: the events it adds, by the first call that raises. *)
Lemma main_run (w : World) (s : Scraper) :
  result main w s = inr tt
  /\ events main w s
     = match setup_raises w NewStoreClient with
       | Some e => [failed e]
       | None =>
           EvSetup NewStoreClient ::
           match setup_raises w MakeDataDir with
           | Some e => [failed e]
           | None =>
               EvSetup MakeDataDir ::
               EvLog INFO "Ghana University Data Scraper initialized!" ::
               match setup_raises w NewSession with
               | Some e => [failed e]
               | None =>
                   EvSetup NewSession ::
                   events scrape_all_data w (entered s) ++
                   match setup_raises w CloseSession with
                   | Some e => [failed e]
                   | None =>
                       EvSetup CloseSession ::
                       match setup_raises w CloseStoreClient with
                       | Some e => [failed e]
                       | None =>
                           EvSetup CloseStoreClient ::
                           match write_failure w with
                           | Some e => [failed e]
                           | None => []
                           end
                       end
                   end
               end
           end
       end.
Proof.
  set (s1 := add_event (EvSetup NewStoreClient) s).
  set (s3 := add_event (EvSetup MakeDataDir) (without_data s1)).
  set (s4 := add_event (EvLog INFO "Ghana University Data Scraper initialized!")
               s3).
  assert (S5 : entered s = add_event (EvSetup NewSession) s4) by reflexivity.
  set (s5 := entered s) in *.
  destruct (scrape_all_data_events w s5) as (run & T & F & R).
  rewrite (events_of_extension scrape_all_data w s5 (run ++ [closing_line w]) T).
  assert (T5 : trace s5
               = trace s ++ [EvSetup NewStoreClient; EvSetup MakeDataDir;
                             EvLog INFO
                               "Ghana University Data Scraper initialized!";
                             EvSetup NewSession]).
  { rewrite S5. unfold s4, s3, s1. cbn [trace add_event without_data].
    by rewrite <- !app_assoc. }
  unfold result, events, after in *.
  unfold main, try_except, __init__, async_with, __aenter__, __aexit__, attempt.
  rewrite !bind_run, (setup_run NewStoreClient w s).
  destruct (setup_raises w NewStoreClient) as [e|].
  { cbn [fst snd log emit trace add_event].
    split; [reflexivity|]. by rewrite drop_app_length. }
  fold s1. rewrite bind_run.
  change (reset_data w s1) with (@inr Exn _ tt, without_data s1).
  cbn beta iota. rewrite bind_run, (setup_run MakeDataDir w (without_data s1)).
  destruct (setup_raises w MakeDataDir) as [e|].
  { cbn [fst snd log emit trace add_event without_data]. unfold s1.
    cbn [trace add_event].
    split; [reflexivity|]. rewrite <- app_assoc. by rewrite drop_app_length. }
  fold s3. change (log INFO _ w s3) with (@inr Exn _ tt, s4). cbn beta iota.
  rewrite bind_run, (setup_run NewSession w s4).
  destruct (setup_raises w NewSession) as [e|].
  { cbn [fst snd log emit trace add_event]. unfold s4, s3, s1.
    cbn [trace add_event without_data].
    split; [reflexivity|]. rewrite <- !app_assoc. by rewrite drop_app_length. }
  rewrite <- S5. rewrite !bind_run. cbn beta iota.
  set (s6 := snd (scrape_all_data w s5)) in *.
  rewrite (setup_run CloseSession w s6).
  destruct (setup_raises w CloseSession) as [e|].
  { cbn [fst snd log emit trace add_event].
    split; [reflexivity|]. rewrite T, T5, <- !app_assoc.
    rewrite drop_app_length. cbn [app]. by rewrite <- ?app_assoc. }
  rewrite (setup_run CloseStoreClient w (add_event (EvSetup CloseSession) s6)).
  destruct (setup_raises w CloseStoreClient) as [e|].
  { cbn [fst snd log emit trace add_event].
    split; [reflexivity|]. rewrite T, T5, <- !app_assoc.
    rewrite drop_app_length. cbn [app]. by rewrite <- ?app_assoc. }
  rewrite R.
  destruct (write_failure w) as [e|];
    cbn [fst snd log emit raise mret M_ret trace add_event];
    (split; [reflexivity|]); rewrite T, T5, <- !app_assoc;
    rewrite drop_app_length; cbn [app]; by rewrite <- ?app_assoc.
Qed.

End MainFacts.

Lemma messages_app (a b : list event) :
  messages (a ++ b) = messages a ++ messages b.
Proof. apply omap_app. Qed.

Lemma last_messages_app (a b : list event) (m : string) :
  last (messages b) = Some m -> last (messages (a ++ b)) = Some m.
Proof. intros H. by rewrite messages_app, last_app, H. Qed.

Lemma setup_events_do_nothing (evs : list event) :
  Forall is_setup evs ->
  requests evs = [] /\ written evs = [] /\ upserts evs = [].
Proof.
  induction 1 as [|e evs He _ (IH1 & IH2 & IH3)]; [done|].
  destruct e; try done; cbn; by rewrite ?IH1, ?IH2, ?IH3.
Qed.

(** X14. [main] never raises: an exception of the constructor, of the
    entry, of the run or of the exit is logged as "Scraper failed" with
    its text, and this is then the last line of the log; when nothing
    raises the last line tells the success of the run. When the
    constructor or the entry raises, no request is sent and nothing is
    written. Once the scraper is entered, the run is made and then the
    session is closed, whether the run raised or not. *)
Theorem X14_main_never_raises `{BS : BeautifulSoup} (w : World) (s : Scraper) :
  result main w s = inr tt
  /\ last (messages (events main w s))
     = Some match main_failure w with
            | Some e => "Scraper failed: " +:+ e
            | None => "Data scraping completed successfully!"
            end
  /\ (is_Some (setup_failure w) ->
      requests (events main w s) = []
      /\ written (events main w s) = []
      /\ upserts (events main w s) = [])
  /\ (setup_failure w = None ->
      exists before rest : list event,
        events main w s
        = before ++ events scrape_all_data w (entered s) ++ rest
        /\ Forall is_setup before
        /\ (setup_raises w CloseSession = None ->
            head rest = Some (EvSetup CloseSession))).
Proof.
  destruct (main_run w s) as (R & Ev).
  destruct (scrape_all_data_events w (entered s)) as (run & T & _ & _).
  apply events_of_extension in T.
  split; [exact R|]. rewrite Ev. clear Ev R.
  unfold main_failure, setup_failure, exit_failure, failed.
  split; [|split].
  - destruct (setup_raises w NewStoreClient) as [e|]; [reflexivity|].
    destruct (setup_raises w MakeDataDir) as [e|]; [reflexivity|].
    destruct (setup_raises w NewSession) as [e|]; [reflexivity|].
    rewrite T, <- app_assoc. unfold closing_line.
    refine (last_messages_app (_ :: _ :: _ :: _ :: run) _ _ _).
    destruct (setup_raises w CloseSession) as [e|];
      [|destruct (setup_raises w CloseStoreClient) as [e|]];
      destruct (write_failure w) as [e'|]; reflexivity.
  - intros [e He]. apply setup_events_do_nothing.
    destruct (setup_raises w NewStoreClient) as [e1|];
      [repeat constructor|].
    destruct (setup_raises w MakeDataDir) as [e2|];
      [repeat constructor|].
    destruct (setup_raises w NewSession) as [e3|];
      [repeat constructor|discriminate He].
  - intros He.
    destruct (setup_raises w NewStoreClient) as [e1|]; [discriminate He|].
    destruct (setup_raises w MakeDataDir) as [e2|]; [discriminate He|].
    destruct (setup_raises w NewSession) as [e3|]; [discriminate He|].
    eexists [_; _; _; _], _. split; [reflexivity|].
    split; [repeat constructor|].
    by intros ->.
Qed.

Lemma main_when_the_store_client_cannot_be_built :
  events (@main (Dom.soup [])) bad_store_address init
  = [EvLog ERROR "Scraper failed: Invalid URI scheme"]
  /\ write_failure bad_store_address = None.
Proof. split; vm_compute; reflexivity. Qed.

(** X15. When no file write is refused, the three files written by a run
    hold the data the run ends with: the university records, the
    scholarships and the cut-off points of the final state. *)
Theorem X15_files_hold_the_final_data `{BS : BeautifulSoup}
    (w : World) (s : Scraper) :
  write_failure w = None ->
  let final := after scrape_all_data w s in
  EvWrite (in_data_dir "ghana_universities.json")
    (dicts (universities_data final)) ∈ trace final
  /\ EvWrite (in_data_dir "scholarships.json")
       (dicts (scholarships_data final)) ∈ trace final
  /\ EvWrite (in_data_dir "cut_off_points.json")
       (VDict (cut_off_points final)) ∈ trace final.
Proof.
  intros Hw final.
  destruct (scrape_all_data_run w s)
    as (s1 & s2 & s3 & s4 & _ & _ & _ & E4 & R).
  assert (F : final
              = add_event (EvLog INFO "Data scraping completed successfully!")
                  s4).
  { unfold final, after. rewrite R, Hw. reflexivity. }
  destruct (keeps_data_save_data w s3) as (U & S & C). rewrite <- E4 in U, S, C.
  destruct (save_data_events w s3) as (db & _ & Ev & _).
  unfold write_failure in Hw.
  destruct (write_raises w (in_data_dir "ghana_universities.json")); [done|].
  destruct (write_raises w (in_data_dir "scholarships.json")); [done|].
  destruct (write_raises w (in_data_dir "cut_off_points.json")); [done|].
  assert (T : exists pre post,
             trace s4
             = pre ++ EvWrite (in_data_dir "ghana_universities.json")
                        (dicts (universities_data s3))
                   :: EvWrite (in_data_dir "scholarships.json")
                        (dicts (scholarships_data s3))
                   :: EvWrite (in_data_dir "cut_off_points.json")
                        (VDict (cut_off_points s3)) :: post).
  { assert (M : exists evs, trace s4 = trace s3 ++ evs).
    { rewrite E4. destruct (emits_only_save_data w s3) as (evs & T & _).
      by exists evs. }
    destruct M as (evs & M).
    assert (Evs : events _save_data w s3 = evs).
    { apply events_of_extension. by rewrite <- E4. }
    rewrite Ev in Evs. subst evs.
    exists (trace s3 ++ [EvLog INFO "Saving scraped data..."]),
      (db ++ [EvLog INFO "All data saved successfully!"]).
    rewrite M, <- app_assoc. reflexivity. }
  destruct T as (pre & post & T).
  rewrite F. cbn [universities_data scholarships_data cut_off_points trace
                  add_event].
  rewrite U, S, C, T.
  repeat split; set_solver.
Qed.

Lemma X15_in_a_calm_run :
  write_failure calm = None
  /\ EvWrite (in_data_dir "ghana_universities.json")
       (dicts (universities_data
                 (after (@scrape_all_data (Dom.soup [])) calm init)))
     ∈ trace (after (@scrape_all_data (Dom.soup [])) calm init).
Proof.
  split; [reflexivity|].
  apply (@X15_files_hold_the_final_data (Dom.soup []) calm init).
  reflexivity.
Defined.

(* ===================================================================== *)
(** * The order of the upserts, and the handler that is never entered *)
(* ===================================================================== *)

Lemma keys_insert {V} (d : odict V) k v :
  keys (<[k := v]> d) = if bool_decide (k ∈ keys d) then keys d else keys d ++ [k].
Proof. apply assoc_set_keys. Qed.

Section Order.
Context `{BS : BeautifulSoup}.

Lemma loop_keys (l : list (string * source_config)) w s :
  NoDup l.*1 ->
  (forall k, k ∈ l.*1 -> k ∉ keys (universities_data s)) ->
  keys (universities_data (after (for_each l scrape_university) w s))
  = keys (universities_data s) ++ l.*1.
Proof.
  revert s. induction l as [|[c cfg] l IH]; intros s ND Hd.
  - unfold after. cbn. by rewrite app_nil_r.
  - apply NoDup_cons in ND as [Hc ND]. cbn [fst] in Hc.
    destruct (scrape_university_spec c cfg w s)
      as (main & s1 & adm & s2 & sa & _ & _ & Er & U & _).
    assert (K : keys (universities_data sa) = keys (universities_data s) ++ [c]).
    { rewrite U, keys_insert. rewrite bool_decide_eq_false_2; [done|].
      apply Hd. cbn. apply list_elem_of_here. }
    unfold after in *. cbn [for_each]. rewrite bind_run, Er. cbn beta iota.
    rewrite IH; [|exact ND|].
    + rewrite K, <- app_assoc. reflexivity.
    + intros k Hk. rewrite K. intros [Hin|Hin]%elem_of_app.
      * apply (Hd k); [cbn; by apply list_elem_of_further|exact Hin].
      * apply list_elem_of_singleton in Hin. by subst.
Qed.

End Order.

Lemma upsert_filters_of_imap w coll kn n (l : list (string * pydict)) :
  (fun u : string * pyval * pyval => (fst (fst u), snd (fst u)))
    <$> imap (upsert_of w coll kn n) l
  = entry_filter coll kn <$> l.*1.
Proof.
  revert n. induction l as [|[k d] l IH]; intros n; [reflexivity|].
  rewrite imap_cons. cbn [fmap list_fmap fst snd upsert_of].
  f_equal. rewrite <- (IH (S n)). f_equal. apply imap_ext.
  intros i x _. unfold upsert_of. cbn. do 3 f_equal. lia.
Qed.

(** X16. With a store that accepts every write, [_save_to_database]
    upserts the entries in the order in which the dictionaries hold them:
    the university records, then the scholarships, then the cut-off
    points. After a run on a scraper that held no university record, the
    records are held in the order of the registry, and the scholarships
    in the order of their table. *)
Theorem X16_entries_are_upserted_in_order `{BS : BeautifulSoup}
    (w : World) (s : Scraper) :
  (forall coll f, replace_raises w coll f = None) ->
  upsert_filters (events _save_to_database w s)
  = (entry_filter "universities_data" "university_code"
       <$> keys (universities_data s))
    ++ (entry_filter "scholarships_data" "scholarship_id"
          <$> keys (scholarships_data s))
    ++ [entry_filter "cut_off_points" "academic_year" "2024_2025"]
  /\ (universities_data s = ∅ ->
      keys (universities_data (after _scrape_universities w s))
      = ["KNUST"; "UG"; "UCC"])
  /\ keys (scholarships_data (after _scrape_scholarships w s))
     = ["getfund"; "mastercard_foundation"; "ghana_government";
        "cocoa_scholarship"].
Proof.
  intros Hw. split; [|split].
  - destruct (save_to_database_events w s Hw) as (n1 & n2 & Ev).
    rewrite Ev. unfold upsert_filters, upserts. rewrite omap_app.
    change (omap _ [EvLog INFO "Data saved to MongoDB Atlas"])
      with (@nil (string * pyval * pyval)).
    rewrite app_nil_r.
    change (omap _ (replace_event <$> ?l)) with (upserts (replace_event <$> l)).
    rewrite upserts_of_replace_events, !fmap_app, !upsert_filters_of_imap.
    reflexivity.
  - intros He.
    set (s0 := add_event (EvLog INFO "Scraping university data...") s).
    assert (A : after _scrape_universities w s
                = after (for_each university_sources scrape_university) w s0).
    { unfold after, _scrape_universities. rewrite bind_run. reflexivity. }
    rewrite A, loop_keys.
    + unfold s0. cbn [universities_data add_event]. rewrite He. reflexivity.
    + apply sources_nodup.
    + intros k _. unfold s0. cbn [universities_data add_event]. rewrite He.
      apply not_elem_of_nil.
  - reflexivity.
Qed.

Lemma X16_with_one_record :
  (forall coll f, replace_raises calm coll f = None)
  /\ upsert_filters (events _save_to_database calm one_record)
     = (entry_filter "universities_data" "university_code"
          <$> keys (universities_data one_record))
       ++ (entry_filter "scholarships_data" "scholarship_id"
             <$> keys (scholarships_data one_record))
       ++ [entry_filter "cut_off_points" "academic_year" "2024_2025"].
Proof.
  split; [reflexivity|].
  exact (proj1 (@X16_entries_are_upserted_in_order (Dom.soup []) calm
                  one_record (fun _ _ => eq_refl))).
Defined.

(** The upserts of a whole run, when nothing fails. *)
Lemma upserts_of_a_calm_run :
  upsert_filters (events (@scrape_all_data (Dom.soup [])) calm init)
  = [ entry_filter "universities_data" "university_code" "KNUST";
      entry_filter "universities_data" "university_code" "UG";
      entry_filter "universities_data" "university_code" "UCC";
      entry_filter "scholarships_data" "scholarship_id" "getfund";
      entry_filter "scholarships_data" "scholarship_id" "mastercard_foundation";
      entry_filter "scholarships_data" "scholarship_id" "ghana_government";
      entry_filter "scholarships_data" "scholarship_id" "cocoa_scholarship";
      entry_filter "cut_off_points" "academic_year" "2024_2025" ].
Proof. vm_compute. reflexivity. Qed.

Section DeadHandler.
Context `{BS : BeautifulSoup}.

Lemma fetch_main_not_from_the_handler url :
  emits_only not_from_the_handler (_fetch_university_main_page url).
Proof.
  unfold _fetch_university_main_page. apply emits_only_try.
  - apply emits_only_bind; [by apply emits_only_session_get|].
    intros [status body]. destruct (Z.eqb status 200).
    + apply emits_only_bind; [apply emits_only_response_text|]. intros html.
      apply emits_only_bind; [apply emits_only_now_isoformat|]. intros t.
      apply emits_only_ret.
    + apply emits_only_bind; [by apply emits_only_log|]. intros _.
      apply emits_only_ret.
  - intros e. apply emits_only_bind; [by apply emits_only_log|]. intros _.
    apply emits_only_ret.
Qed.

Lemma fetch_admissions_not_from_the_handler url :
  emits_only not_from_the_handler (_fetch_admissions_page url).
Proof.
  unfold _fetch_admissions_page. apply emits_only_try.
  - apply emits_only_bind; [by apply emits_only_session_get|].
    intros [status body]. destruct (Z.eqb status 200).
    + apply emits_only_bind; [apply emits_only_response_text|]. intros html.
      apply emits_only_ret.
    + apply emits_only_ret.
  - intros e. apply emits_only_bind; [by apply emits_only_log|]. intros _.
    apply emits_only_ret.
Qed.

Lemma attempt_not_from_the_handler src w s :
  Forall not_from_the_handler (events (scrape_university src) w s).
Proof.
  destruct src as [code cfg]. rewrite scrape_university_events.
  set (s0 := add_event _ s).
  destruct (fetch_main_not_from_the_handler (url cfg) w s0) as (v1 & T1 & F1).
  destruct (fetch_admissions_not_from_the_handler (admissions_url cfg) w
              (after (_fetch_university_main_page (url cfg)) w s0))
    as (v2 & T2 & F2).
  rewrite (events_of_extension _ _ _ _ T1), (events_of_extension _ _ _ _ T2).
  constructor; [reflexivity|].
  apply Forall_app_2; [exact F1|].
  apply Forall_app_2; [exact F2|]. by repeat constructor.
Qed.

Lemma loop_not_from_the_handler (l : list (string * source_config)) w s :
  Forall not_from_the_handler (events (for_each l scrape_university) w s).
Proof.
  revert s. induction l as [|src l IH]; intros s.
  - unfold events, after. cbn. rewrite drop_all. constructor.
  - rewrite loop_events_cons. apply Forall_app_2; [|apply IH].
    apply attempt_not_from_the_handler.
Qed.

End DeadHandler.

(** X17. The handler of the loop of [_scrape_universities] is never
    entered: whatever the requests bring, no line of the log is its error
    line, and the record stored for a source of the registry is the
    combination of what the helpers returned, with the URLs of the source
    and no status tag. It is never the fallback record. *)
Theorem X17_fallback_is_never_stored `{BS : BeautifulSoup}
    (w : World) (s : Scraper) (code : string) (cfg : source_config) :
  (code, cfg) ∈ university_sources ->
  Forall not_from_the_handler (events _scrape_universities w s)
  /\ exists r : pydict,
       universities_data (after _scrape_universities w s) !! code = Some r
       /\ r <> _get_fallback_university_data code
       /\ r !! "status" = None
       /\ r !! "source_urls" = Some (strs [url cfg; admissions_url cfg]).
Proof.
  intros [i Hi]%list_elem_of_lookup. split.
  - set (s0 := add_event (EvLog INFO "Scraping university data...") s).
    destruct (loop_trace_extends university_sources w s0) as (evs & T).
    pose proof (loop_not_from_the_handler university_sources w s0) as F.
    rewrite (events_of_extension _ _ _ _ T) in F.
    rewrite (events_of_extension _scrape_universities w s
               (EvLog INFO "Scraping university data..." :: evs)).
    + constructor; [reflexivity | exact F].
    + unfold after, _scrape_universities in *. rewrite bind_run.
      change (log INFO _ w s) with (@inr Exn _ tt, s0). cbn beta iota.
      rewrite T. unfold s0. cbn [trace add_event]. by rewrite <- app_assoc.
  - destruct (scrape_universities_spec w s) as (s' & E & _ & _ & _ & I).
    destruct (I i code cfg Hi) as (si & main & s1 & adm & s2 & E1 & E2 & R).
    unfold after. rewrite E. cbn [snd].
    eexists. split; [exact R|].
    split; [by eapply combine_is_not_fallback|]. split.
    + assert (K : Forall (fun k => combine main adm (clock w (ticks s2)) cfg !! k
                                   = None) fallback_keys).
      { apply combine_has_no_fallback_key.
        - by eapply main_has_no_fallback_key.
        - by eapply admissions_has_no_fallback_key. }
      rewrite Forall_forall in K. apply K. compute_done.
    + unfold combine. by rewrite lookup_insert_eq.
Qed.

Lemma X17_for_knust_when_the_network_is_down :
  ("KNUST", knust_config) ∈ university_sources
  /\ exists r : pydict,
       universities_data
         (after (@_scrape_universities (Dom.soup [])) network_down init)
         !! "KNUST" = Some r
       /\ r <> _get_fallback_university_data "KNUST".
Proof.
  split; [constructor|].
  destruct (@X17_fallback_is_never_stored (Dom.soup []) network_down init
              "KNUST" knust_config) as (_ & r & H1 & H2 & _).
  - constructor.
  - exists r. split; [exact H1 | exact H2].
Defined.
